(** * oculo-control: the EOG gaze classifier of [graph.py]

    A shallow embedding of class [classify] (the threshold classifier
    [treshold] and the correlation matcher [template_match]) and the
    properties of its specification.

    Amplitudes are Python floats, that is IEEE 754 binary64 numbers: they are
    modelled by Rocq's primitive floats, whose operations are the same
    binary64 operations. *)

From Stdlib Require Import Floats ZArith List String Bool Lia.
Import ListNotations.

Set Warnings "-inexact-float".

Local Open Scope string_scope.
Local Open Scope Z_scope.

(** ** Python values, exceptions and outcomes *)

(** The objects an attribute of [classify] may hold at run time: the signal
    stacks start as lists and the templates as the integer [0]. *)
Inductive pyobj : Type :=
| PyNone
| PyInt (z : Z)
| PyFloat (f : float)
| PyList (l : list float).

Inductive exn : Type :=
| AttributeError
| IndexError
| TypeError
| ValueError.

(** A call either returns a value or raises. *)
Inductive outcome (A : Type) : Type :=
| Ok (a : A)
| Raise (e : exn).
Arguments Ok {A} a.
Arguments Raise {A} e.

(** Python's [a > b] on floats ([False] as soon as one side is NaN). *)
Definition fgt (a b : float) : bool := PrimFloat.ltb b a.
(** Python's [a < b] on floats. *)
Definition flt (a b : float) : bool := PrimFloat.ltb a b.

(** ** The object state: the attributes set by [__init__]

    The record holds the attributes that live from one call to the next.
    The other attributes the methods assign ([vertical_amplitude],
    [horizontal_amplitude], [vertical_difference], [horizontal_difference],
    the five thresholds of [treshold], the five [*_corr] of
    [template_match]) are assigned in a call before that call reads them and
    are read nowhere else: they are the local values of the definitions
    below and no field of the record.  Statements on a state are statements
    on the fields of the record. *)

Record classify : Type := mkClassify {
  vertical_prev_amplitude : float;
  horizontal_prev_amplitude : float;
  left_flag : Z;
  right_flag : Z;
  up_flag : Z;
  down_flag : Z;
  status : string;
  iterator : Z;
  vertical_signal_stack : pyobj;
  horizontal_signal_stack : pyobj;
  cross_corr_tresh : float;
  left_template : pyobj;
  right_template : pyobj;
  blink_template : pyobj;
  up_template : pyobj;
  down_template : pyobj
}.

(** [classify.__init__].  The previous amplitudes start as the integer [0];
    [float - 0] is computed as [float - 0.0], so they are held as floats. *)
Definition new_classify : classify :=
  {| vertical_prev_amplitude := 0%float;
     horizontal_prev_amplitude := 0%float;
     left_flag := 0;
     right_flag := 0;
     up_flag := 0;
     down_flag := 0;
     status := "centre";
     iterator := 0;
     vertical_signal_stack := PyList [];
     horizontal_signal_stack := PyList [];
     cross_corr_tresh := 0.9%float;
     left_template := PyInt 0;
     right_template := PyInt 0;
     blink_template := PyInt 0;
     up_template := PyInt 0;
     down_template := PyInt 0 |}.

(** Attribute assignments [self.x = v]. *)
Definition set_vertical_prev_amplitude (x : float) (c : classify) : classify :=
  let '(mkClassify _ hp lf rf uf df st it vs hs cc lt rt bt ut dt) := c in
  mkClassify x hp lf rf uf df st it vs hs cc lt rt bt ut dt.
Definition set_horizontal_prev_amplitude (x : float) (c : classify) : classify :=
  let '(mkClassify vp _ lf rf uf df st it vs hs cc lt rt bt ut dt) := c in
  mkClassify vp x lf rf uf df st it vs hs cc lt rt bt ut dt.
Definition set_left_flag (x : Z) (c : classify) : classify :=
  let '(mkClassify vp hp _ rf uf df st it vs hs cc lt rt bt ut dt) := c in
  mkClassify vp hp x rf uf df st it vs hs cc lt rt bt ut dt.
Definition set_right_flag (x : Z) (c : classify) : classify :=
  let '(mkClassify vp hp lf _ uf df st it vs hs cc lt rt bt ut dt) := c in
  mkClassify vp hp lf x uf df st it vs hs cc lt rt bt ut dt.
Definition set_up_flag (x : Z) (c : classify) : classify :=
  let '(mkClassify vp hp lf rf _ df st it vs hs cc lt rt bt ut dt) := c in
  mkClassify vp hp lf rf x df st it vs hs cc lt rt bt ut dt.
Definition set_down_flag (x : Z) (c : classify) : classify :=
  let '(mkClassify vp hp lf rf uf _ st it vs hs cc lt rt bt ut dt) := c in
  mkClassify vp hp lf rf uf x st it vs hs cc lt rt bt ut dt.
Definition set_status (x : string) (c : classify) : classify :=
  let '(mkClassify vp hp lf rf uf df _ it vs hs cc lt rt bt ut dt) := c in
  mkClassify vp hp lf rf uf df x it vs hs cc lt rt bt ut dt.
Definition set_vertical_signal_stack (x : pyobj) (c : classify) : classify :=
  let '(mkClassify vp hp lf rf uf df st it _ hs cc lt rt bt ut dt) := c in
  mkClassify vp hp lf rf uf df st it x hs cc lt rt bt ut dt.
Definition set_horizontal_signal_stack (x : pyobj) (c : classify) : classify :=
  let '(mkClassify vp hp lf rf uf df st it vs _ cc lt rt bt ut dt) := c in
  mkClassify vp hp lf rf uf df st it vs x cc lt rt bt ut dt.

(** ** Direction labels

    The status strings of the source read as the labels of the
    specification; the source spells the resting label both ["centre"]
    ([__init__]) and ["center"] ([treshold]). *)
Inductive DirectionLabel : Type := Center | Up | Down | Left | Right | Blink.

Definition label_of_status (s : string) : option DirectionLabel :=
  if String.eqb s "centre" then Some Center
  else if String.eqb s "center" then Some Center
  else if String.eqb s "up" then Some Up
  else if String.eqb s "down" then Some Down
  else if String.eqb s "left" then Some Left
  else if String.eqb s "right" then Some Right
  else if String.eqb s "blink" then Some Blink
  else None.

(** One [if cond: ...] statement. *)
Definition when (cond : bool) (upd : classify -> classify) (self : classify) : classify :=
  if cond then upd self else self.

(** ** [classify.treshold] *)

Module Threshold.

(** The thresholds [treshold] assigns at the start of every call. *)
Definition upper_thresh_vertical : float := 100%float.
Definition lower_thresh_vertical : float := 100%float.
Definition upper_thresh_horizontal : float := 3%float.
Definition lower_thresh_horizontal : float := 2%float.
Definition difference_tresh : float := 0.5%float.

(** [self.vertical_difference] and [self.horizontal_difference] of a call
    entered in state [self]. *)
Definition vertical_difference (self : classify) (vertical_amplitude : float) : float :=
  (vertical_amplitude - vertical_prev_amplitude self)%float.
Definition horizontal_difference (self : classify) (horizontal_amplitude : float) : float :=
  (horizontal_amplitude - horizontal_prev_amplitude self)%float.

(** [treshold(self, vertical_amplitude, horizontal_amplitude)]: the returned
    status and the state it leaves.  [float(x)] is the identity on a float. *)
Definition treshold (self : classify) (vertical_amplitude horizontal_amplitude : float)
  : string * classify :=
  let vd := vertical_difference self vertical_amplitude in
  let hd := horizontal_difference self horizontal_amplitude in
  let self := set_horizontal_prev_amplitude horizontal_amplitude self in
  let self := set_vertical_prev_amplitude vertical_amplitude self in
  let self := when (fgt vertical_amplitude upper_thresh_vertical && fgt vd difference_tresh)
                   (fun c => set_status "up" (set_up_flag 1 c)) self in
  let self := when (flt vertical_amplitude lower_thresh_vertical && flt vd (- difference_tresh)%float)
                   (fun c => set_status "down" (set_down_flag 1 c)) self in
  let self := when (fgt horizontal_amplitude upper_thresh_horizontal && fgt hd difference_tresh)
                   (fun c => set_status "right" (set_right_flag 1 c)) self in
  let self := when (flt horizontal_amplitude lower_thresh_horizontal && flt hd (- difference_tresh)%float)
                   (fun c => set_status "left" (set_left_flag 1 c)) self in
  let self := when ((up_flag self =? 1) && flt vd (- difference_tresh)%float)
                   (fun c => set_status "center" (set_up_flag 0 c)) self in
  let self := when ((down_flag self =? 1) && fgt vd difference_tresh)
                   (fun c => set_status "center" (set_down_flag 0 c)) self in
  let self := when ((right_flag self =? 1) && flt hd (- difference_tresh)%float)
                   (fun c => set_status "center" (set_right_flag 0 c)) self in
  let self := when ((left_flag self =? 1) && fgt hd difference_tresh)
                   (fun c => set_status "center" (set_left_flag 0 c)) self in
  (status self, self).

(** Feeding a stream of samples [(vertical, horizontal)] to one object: the
    statuses returned, in order, and the final state. *)
Fixpoint classify_stream (self : classify) (samples : list (float * float))
  : list string * classify :=
  match samples with
  | [] => ([], self)
  | (v, h) :: rest =>
      let '(s, self') := treshold self v h in
      let '(ss, self'') := classify_stream self' rest in
      (s :: ss, self'')
  end.

(** The states a threshold classifier goes through. *)
Inductive reachable : classify -> Prop :=
| reachable_new : reachable new_classify
| reachable_step self v h : reachable self -> reachable (snd (treshold self v h)).

(** How many of the four direction flags differ between two states. *)
Definition changed (f : classify -> Z) (s s' : classify) : nat :=
  if f s =? f s' then 0%nat else 1%nat.
Definition flags_changed (s s' : classify) : nat :=
  (changed up_flag s s' + changed down_flag s s'
   + changed left_flag s s' + changed right_flag s s')%nat.

(** A flag that did not hold [x] before the call and holds [x] after it. *)
Definition becomes (x : Z) (f : classify -> Z) (s s' : classify) : Prop :=
  f s <> x /\ f s' = x.

(** The conditions of the four setting statements, as the call evaluates them. *)
Definition up_set (self : classify) (v : float) : bool :=
  fgt v upper_thresh_vertical && fgt (vertical_difference self v) difference_tresh.
Definition down_set (self : classify) (v : float) : bool :=
  flt v lower_thresh_vertical && flt (vertical_difference self v) (- difference_tresh)%float.
Definition right_set (self : classify) (h : float) : bool :=
  fgt h upper_thresh_horizontal && fgt (horizontal_difference self h) difference_tresh.
Definition left_set (self : classify) (h : float) : bool :=
  flt h lower_thresh_horizontal && flt (horizontal_difference self h) (- difference_tresh)%float.

(** The conditions of the four clearing statements, as the call evaluates
    them: each reads the flag the setting statements have just left. *)
Definition up_clear (self : classify) (v : float) : bool :=
  ((if up_set self v then 1 else up_flag self) =? 1)
  && flt (vertical_difference self v) (- difference_tresh)%float.
Definition down_clear (self : classify) (v : float) : bool :=
  ((if down_set self v then 1 else down_flag self) =? 1)
  && fgt (vertical_difference self v) difference_tresh.
Definition right_clear (self : classify) (h : float) : bool :=
  ((if right_set self h then 1 else right_flag self) =? 1)
  && flt (horizontal_difference self h) (- difference_tresh)%float.
Definition left_clear (self : classify) (h : float) : bool :=
  ((if left_set self h then 1 else left_flag self) =? 1)
  && fgt (horizontal_difference self h) difference_tresh.

(** The worked example of the specification: vertical amplitudes 0, 50, 101
    and 101.6, the horizontal amplitude held at [h]. *)
Definition example_stream (h : float) : list (float * float) :=
  [(0, h); (50, h); (101, h); (101.6, h)]%float.

(** A state with the down and left flags raised, one call after [__init__]. *)
Definition down_left_raised : classify :=
  snd (treshold new_classify (-1)%float (-1)%float).

End Threshold.

(** ** [classify.template_match] *)

Module Correlation.

(** [list.append(x)] on an arbitrary object: the object after the call and
    the value the call returns.  A list is extended in place and the call
    returns [None]; no other object here has the attribute. *)
Definition py_append (o : pyobj) (x : float) : outcome (pyobj * pyobj) :=
  match o with
  | PyList l => Ok (PyList (l ++ [x]), PyNone)
  | _ => Raise AttributeError
  end.

(** [list.pop(0)]: the object after the call and the popped element. *)
Definition py_pop0 (o : pyobj) : outcome (pyobj * float) :=
  match o with
  | PyList (x :: l) => Ok (PyList l, x)
  | PyList [] => Raise IndexError
  | _ => Raise AttributeError
  end.

(** The label block that ends [template_match]: five independent tests in
    the order left, right, up, down, blink, each overwriting [self.status]. *)
Definition select_status (left_corr right_corr up_corr down_corr blink_corr : float * float)
    (self : classify) : classify :=
  let self := when (fgt (fst left_corr) 0.9) (set_status "left") self in
  let self := when (fgt (fst right_corr) 0.9) (set_status "right") self in
  let self := when (fgt (fst up_corr) 0.9) (set_status "up") self in
  let self := when (fgt (fst down_corr) 0.9) (set_status "down") self in
  let self := when (fgt (fst blink_corr) 0.9) (set_status "blink") self in
  self.

Section WithPearson.

(** [scipy.stats.pearsonr], a function of the SciPy library: given two
    objects it returns the pair (correlation, p-value) or raises. *)
Variable pearsonr : pyobj -> pyobj -> outcome (float * float).

(** The first half of [template_match]: the two
    [self.stack = self.stack.append(x)] statements, then the eviction
    guarded by [self.iterator > template_size].  The assignment stores
    what [append] returns. *)
Definition stack_step (self : classify) (vertical_amplitude horizontal_amplitude : float)
    (template_size : Z) : outcome unit * classify :=
  match py_append (vertical_signal_stack self) vertical_amplitude with
  | Raise e => (Raise e, self)
  | Ok (_, ret_v) =>
      let self := set_vertical_signal_stack ret_v self in
      match py_append (horizontal_signal_stack self) horizontal_amplitude with
      | Raise e => (Raise e, self)
      | Ok (_, ret_h) =>
          let self := set_horizontal_signal_stack ret_h self in
          if iterator self >? template_size then
            match py_pop0 (vertical_signal_stack self) with
            | Raise e => (Raise e, self)
            | Ok (vs, _) =>
                let self := set_vertical_signal_stack vs self in
                match py_pop0 (horizontal_signal_stack self) with
                | Raise e => (Raise e, self)
                | Ok (hs, _) => (Ok tt, set_horizontal_signal_stack hs self)
                end
            end
          else (Ok tt, self)
      end
  end.

(** The second half: the five [pearsonr] calls, in source order, then the
    label block.  The attributes [left_corr] ... [blink_corr] are written
    and read only here, so they are local to the call. *)
Definition correlate (self : classify) : outcome string * classify :=
  match pearsonr (horizontal_signal_stack self) (left_template self) with
  | Raise e => (Raise e, self)
  | Ok left_corr =>
  match pearsonr (horizontal_signal_stack self) (right_template self) with
  | Raise e => (Raise e, self)
  | Ok right_corr =>
  match pearsonr (vertical_signal_stack self) (up_template self) with
  | Raise e => (Raise e, self)
  | Ok up_corr =>
  match pearsonr (vertical_signal_stack self) (down_template self) with
  | Raise e => (Raise e, self)
  | Ok down_corr =>
  match pearsonr (vertical_signal_stack self) (blink_template self) with
  | Raise e => (Raise e, self)
  | Ok blink_corr =>
      let self := select_status left_corr right_corr up_corr down_corr blink_corr self in
      (Ok (status self), self)
  end end end end end.

(** [template_match(self, vertical_amplitude, horizontal_amplitude,
    template_size)]. *)
Definition template_match (self : classify) (vertical_amplitude horizontal_amplitude : float)
    (template_size : Z) : outcome string * classify :=
  match stack_step self vertical_amplitude horizontal_amplitude template_size with
  | (Raise e, self) => (Raise e, self)
  | (Ok _, self) => correlate self
  end.

(** Successive calls on one object, by a caller that goes on after an
    exception: the outcome of every call, and the final state. *)
Fixpoint match_stream (self : classify) (samples : list (float * float))
    (template_size : Z) : list (outcome string) * classify :=
  match samples with
  | [] => ([], self)
  | (v, h) :: rest =>
      let '(r, self') := template_match self v h template_size in
      let '(rs, self'') := match_stream self' rest template_size in
      (r :: rs, self'')
  end.

End WithPearson.

(** Behaviours of the library function, used to run the code on concrete
    inputs. *)

(** Rejects whatever is not a pair of lists, and finds no correlation
    otherwise. *)
Definition pearsonr_rejecting (x y : pyobj) : outcome (float * float) :=
  match x, y with
  | PyList _, PyList _ => Ok (0%float, 1%float)
  | _, _ => Raise TypeError
  end.

(** Correlation exactly 0.9 against the template [[1; 2; 3; 4]] and 0
    against every other one. *)
Definition pearsonr_at_threshold (x y : pyobj) : outcome (float * float) :=
  match y with
  | PyList [a; b; c; d] =>
      if (PrimFloat.eqb a 1 && PrimFloat.eqb b 2 && PrimFloat.eqb c 3 && PrimFloat.eqb d 4)%bool
      then Ok (0.9%float, 0%float) else Ok (0%float, 1%float)
  | _ => Ok (0%float, 1%float)
  end.

(** Correlation 1 against everything. *)
Definition pearsonr_perfect (x y : pyobj) : outcome (float * float) :=
  Ok (1%float, 0%float).

(** An object whose left template has been assigned, and whose windows
    miss one sample of four. *)
Definition with_left_template : classify :=
  let '(mkClassify vp hp lf rf uf df st it _ _ cc _ rt bt ut dt) := new_classify in
  mkClassify vp hp lf rf uf df st it
    (PyList [1; 2; 3]%float) (PyList [1; 2; 3]%float) cc
    (PyList [1; 2; 3; 4]%float) rt bt ut dt.

End Correlation.

(** ** [graph.animate]: the rows of the sample file *)

Module Graph.

(** The block of [animate] that rewrites [sampleText.txt]: the file is read
    as the list [d] of its lines ([readlines]), then every line [i] of [d]
    with [i != d[0]] is written back from the start and the file is
    truncated there.  The result is the list of lines of the file after
    the block.  With no line the loop body never runs. *)
Definition delete_first_row (d : list string) : list string :=
  filter (fun i => negb (String.eqb i (hd EmptyString d))) d.

End Graph.

(** ** Views of the state *)

Module Views.

(** The values a flag takes. *)
Definition is_bit (z : Z) : Prop := z = 0 \/ z = 1.

(** The attributes of the correlation matcher. *)
Definition matcher_state (s : classify)
  : Z * pyobj * pyobj * float * (pyobj * pyobj * pyobj * pyobj * pyobj) :=
  (iterator s, vertical_signal_stack s, horizontal_signal_stack s, cross_corr_tresh s,
   (left_template s, right_template s, up_template s, down_template s, blink_template s)).

(** The object with another value in [cross_corr_tresh]. *)
Definition with_cross_corr_tresh (x : float) (c : classify) : classify :=
  let '(mkClassify vp hp lf rf uf df st it vs hs _ lt rt bt ut dt) := c in
  mkClassify vp hp lf rf uf df st it vs hs x lt rt bt ut dt.

End Views.

(** * Properties of the threshold classifier *)

Module ThresholdFacts.
Import Threshold.

(** A delta cannot be above [difference_tresh] and below its opposite: both
    comparisons are decided by the sign of the binary64 number. *)
Lemma delta_not_both (x : float) :
  fgt x difference_tresh = true -> flt x (- difference_tresh)%float = true -> False.
Proof.
  unfold fgt, flt, difference_tresh.
  rewrite !ltb_spec.
  change (Prim2SF (- 0.5)%float) with (S754_finite true 4503599627370496 (-53)).
  change (Prim2SF 0.5%float) with (S754_finite false 4503599627370496 (-53)).
  unfold SFltb, SFcompare.
  destruct (Prim2SF x) as [s | s | | s m e]; try destruct s; discriminate.
Qed.

Lemma delta_up_excludes_down (x : float) :
  fgt x difference_tresh = true -> flt x (- difference_tresh)%float = false.
Proof.
  intros Hup. destruct (flt x (- difference_tresh)%float) eqn:Hdown; [|reflexivity].
  exfalso; eapply delta_not_both; eassumption.
Qed.

Lemma delta_down_excludes_up (x : float) :
  flt x (- difference_tresh)%float = true -> fgt x difference_tresh = false.
Proof.
  intros Hdown. destruct (fgt x difference_tresh) eqn:Hup; [|reflexivity].
  exfalso; eapply delta_not_both; eassumption.
Qed.

(** Case analysis on every test of a [treshold] call. *)
Ltac split_tests :=
  repeat match goal with
         | |- context [if ?b then _ else _] => destruct b eqn:?
         end.

Ltac run_treshold self :=
  destruct self;
  unfold treshold, when, up_clear, down_clear, right_clear, left_clear,
    up_set, down_set, right_set, left_set;
  cbn [fst snd status up_flag down_flag left_flag right_flag
       vertical_prev_amplitude horizontal_prev_amplitude
       set_status set_up_flag set_down_flag set_left_flag set_right_flag
       set_vertical_prev_amplitude set_horizontal_prev_amplitude].

(** The final value of each flag: [0] when its clearing statement fires, else
    [1] when its setting statement fires, else unchanged. *)
Lemma up_flag_treshold self v h :
  up_flag (snd (treshold self v h)) =
    if up_clear self v then 0 else if up_set self v then 1 else up_flag self.
Proof. run_treshold self. split_tests; cbn in *; congruence. Qed.

Lemma down_flag_treshold self v h :
  down_flag (snd (treshold self v h)) =
    if down_clear self v then 0 else if down_set self v then 1 else down_flag self.
Proof. run_treshold self. split_tests; cbn in *; congruence. Qed.

Lemma right_flag_treshold self v h :
  right_flag (snd (treshold self v h)) =
    if right_clear self h then 0 else if right_set self h then 1 else right_flag self.
Proof. run_treshold self. split_tests; cbn in *; congruence. Qed.

Lemma left_flag_treshold self v h :
  left_flag (snd (treshold self v h)) =
    if left_clear self h then 0 else if left_set self h then 1 else left_flag self.
Proof. run_treshold self. split_tests; cbn in *; congruence. Qed.

(** What each test says about the delta of its axis. *)
Lemma up_set_delta self v :
  up_set self v = true -> fgt (vertical_difference self v) difference_tresh = true.
Proof. unfold up_set. intros H. apply andb_prop in H. tauto. Qed.

Lemma down_set_delta self v :
  down_set self v = true -> flt (vertical_difference self v) (- difference_tresh)%float = true.
Proof. unfold down_set. intros H. apply andb_prop in H. tauto. Qed.

Lemma right_set_delta self h :
  right_set self h = true -> fgt (horizontal_difference self h) difference_tresh = true.
Proof. unfold right_set. intros H. apply andb_prop in H. tauto. Qed.

Lemma left_set_delta self h :
  left_set self h = true -> flt (horizontal_difference self h) (- difference_tresh)%float = true.
Proof. unfold left_set. intros H. apply andb_prop in H. tauto. Qed.

Lemma up_clear_delta self v :
  up_clear self v = true -> flt (vertical_difference self v) (- difference_tresh)%float = true.
Proof. unfold up_clear. intros H. apply andb_prop in H. tauto. Qed.

Lemma down_clear_delta self v :
  down_clear self v = true -> fgt (vertical_difference self v) difference_tresh = true.
Proof. unfold down_clear. intros H. apply andb_prop in H. tauto. Qed.

Lemma right_clear_delta self h :
  right_clear self h = true -> flt (horizontal_difference self h) (- difference_tresh)%float = true.
Proof. unfold right_clear. intros H. apply andb_prop in H. tauto. Qed.

Lemma left_clear_delta self h :
  left_clear self h = true -> fgt (horizontal_difference self h) difference_tresh = true.
Proof. unfold left_clear. intros H. apply andb_prop in H. tauto. Qed.

(** A test that sets a flag keeps its clearing test from firing. *)
Lemma up_set_no_clear self v : up_set self v = true -> up_clear self v = false.
Proof.
  intros Hs. unfold up_clear. rewrite Hs.
  rewrite (delta_up_excludes_down _ (up_set_delta _ _ Hs)). apply andb_false_r.
Qed.

Lemma down_set_no_clear self v : down_set self v = true -> down_clear self v = false.
Proof.
  intros Hs. unfold down_clear. rewrite Hs.
  rewrite (delta_down_excludes_up _ (down_set_delta _ _ Hs)). apply andb_false_r.
Qed.

Lemma right_set_no_clear self h : right_set self h = true -> right_clear self h = false.
Proof.
  intros Hs. unfold right_clear. rewrite Hs.
  rewrite (delta_up_excludes_down _ (right_set_delta _ _ Hs)). apply andb_false_r.
Qed.

Lemma left_set_no_clear self h : left_set self h = true -> left_clear self h = false.
Proof.
  intros Hs. unfold left_clear. rewrite Hs.
  rewrite (delta_down_excludes_up _ (left_set_delta _ _ Hs)). apply andb_false_r.
Qed.

(** A flag that rises during a call was set by the setting test; a flag that
    falls was cleared by the clearing test. *)
Lemma rise_needs_set (f : classify -> Z) (clear set : bool) (self self' : classify) :
  f self' = (if clear then 0 else if set then 1 else f self) ->
  becomes 1 f self self' -> set = true.
Proof.
  intros Heq [Hbefore Hafter]. rewrite Hafter in Heq.
  destruct clear; [discriminate|]. destruct set; [reflexivity|]. congruence.
Qed.

Lemma fall_needs_clear (f : classify -> Z) (clear set : bool) (self self' : classify) :
  f self' = (if clear then 0 else if set then 1 else f self) ->
  becomes 0 f self self' -> clear = true.
Proof.
  intros Heq [Hbefore Hafter]. rewrite Hafter in Heq.
  destruct clear; [reflexivity|]. destruct set; [discriminate|]. congruence.
Qed.

(** ** Binary64 facts *)

(** A float minus itself is zero or NaN: it is neither above [0.5] nor
    below [-0.5]. *)
Lemma sub_self_quiet (x : float) :
  fgt (x - x)%float difference_tresh = false
  /\ flt (x - x)%float (- difference_tresh)%float = false.
Proof.
  unfold fgt, flt, difference_tresh.
  rewrite !FloatAxioms.ltb_spec, FloatAxioms.sub_spec.
  change (Prim2SF (- 0.5)%float) with (S754_finite true 4503599627370496 (-53)).
  change (Prim2SF 0.5%float) with (S754_finite false 4503599627370496 (-53)).
  unfold SF64sub, SFsub, SFltb, SFcompare.
  destruct (Prim2SF x) as [s | s | | s m e]; try (destruct s; split; reflexivity).
  - split; reflexivity.
  - cbv zeta. rewrite Z.sub_diag. split; reflexivity.
Qed.

(** A NaN is the only float [is_nan] accepts. *)
Lemma is_nan_Prim2SF (x : float) : PrimFloat.is_nan x = true -> Prim2SF x = S754_nan.
Proof.
  unfold PrimFloat.is_nan. rewrite FloatAxioms.eqb_spec. unfold SFeqb, SFcompare.
  destruct (Prim2SF x) as [s | s | | s m e]; try (destruct s);
    try discriminate; try reflexivity;
    rewrite Z.compare_refl, Pos.compare_cont_refl; discriminate.
Qed.

(** A difference with a NaN operand is neither above [0.5] nor below
    [-0.5]. *)
Lemma sub_nan_quiet (x y : float) :
  PrimFloat.is_nan x = true \/ PrimFloat.is_nan y = true ->
  fgt (x - y)%float difference_tresh = false
  /\ flt (x - y)%float (- difference_tresh)%float = false.
Proof.
  intros H. unfold fgt, flt, difference_tresh.
  rewrite !FloatAxioms.ltb_spec, FloatAxioms.sub_spec.
  assert (Hn : SF64sub (Prim2SF x) (Prim2SF y) = S754_nan).
  { destruct H as [H | H]; rewrite (is_nan_Prim2SF _ H); [reflexivity|].
    unfold SF64sub, SFsub. destruct (Prim2SF x) as [s | s | | s m e]; reflexivity. }
  rewrite Hn. split; reflexivity.
Qed.

(** Subtracting the initial previous amplitude changes nothing. *)
Lemma sub_zero_r (x : float) : (x - 0)%float = x.
Proof.
  apply Prim2SF_inj. rewrite FloatAxioms.sub_spec.
  change (Prim2SF 0%float) with (S754_zero false).
  unfold SF64sub, SFsub.
  destruct (Prim2SF x) as [s | s | | s m e]; try destruct s; reflexivity.
Qed.

(** What lies below [-0.5] lies below the lower horizontal threshold. *)
Lemma below_minus_half_is_below_lower (x : float) :
  flt x (- difference_tresh)%float = true -> flt x lower_thresh_horizontal = true.
Proof.
  unfold flt, difference_tresh, lower_thresh_horizontal.
  rewrite !FloatAxioms.ltb_spec.
  change (Prim2SF (- 0.5)%float) with (S754_finite true 4503599627370496 (-53)).
  change (Prim2SF 2%float) with (S754_finite false 4503599627370496 (-51)).
  unfold SFltb, SFcompare.
  destruct (Prim2SF x) as [s | s | | s m e]; try destruct s;
    try discriminate; reflexivity.
Qed.

(** What lies above the upper horizontal threshold lies above [0.5]. *)
Lemma above_upper_is_above_half (x : float) :
  fgt x upper_thresh_horizontal = true -> fgt x difference_tresh = true.
Proof.
  unfold fgt, difference_tresh, upper_thresh_horizontal.
  rewrite !FloatAxioms.ltb_spec.
  change (Prim2SF 0.5%float) with (S754_finite false 4503599627370496 (-53)).
  change (Prim2SF 3%float) with (S754_finite false 6755399441055744 (-51)).
  unfold SFltb, SFcompare.
  destruct (Prim2SF x) as [s | s | | s m e]; try destruct s;
    try discriminate; try reflexivity.
  destruct (Z.compare_spec (-51) e) as [He | He | He]; try discriminate.
  - subst e. reflexivity.
  - intros _. replace (-53 ?= e) with Lt; [reflexivity|].
    symmetry. apply Z.compare_lt_iff. lia.
Qed.

(** Nothing lies below the lower and above the upper horizontal threshold. *)
Lemma below_lower_is_not_above_upper (x : float) :
  flt x lower_thresh_horizontal = true -> fgt x upper_thresh_horizontal = false.
Proof.
  intros Hlow. destruct (fgt x upper_thresh_horizontal) eqn:Hup; [exfalso | reflexivity].
  revert Hlow Hup.
  unfold flt, fgt, lower_thresh_horizontal, upper_thresh_horizontal.
  rewrite !FloatAxioms.ltb_spec.
  change (Prim2SF 2%float) with (S754_finite false 4503599627370496 (-51)).
  change (Prim2SF 3%float) with (S754_finite false 6755399441055744 (-51)).
  unfold SFltb, SFcompare.
  destruct (Prim2SF x) as [s | s | | s m e]; try destruct s; try discriminate.
  rewrite (Z.compare_antisym e (-51)).
  destruct (Z.compare_spec e (-51)) as [He | He | He]; cbn [CompOpp]; try discriminate.
  rewrite !Pos.compare_cont_spec.
  destruct (Pos.compare_spec m 4503599627370496) as [H1 | H1 | H1]; try discriminate.
  destruct (Pos.compare_spec 6755399441055744 m) as [H2 | H2 | H2]; try discriminate.
  pose proof (Pos.lt_trans _ _ _ H2 H1) as H. vm_compute in H. discriminate.
Qed.

(** ** Case analysis on the tests of a call *)

(** Unfolds a call on a state given field by field. *)
Ltac open_call :=
  unfold treshold, when, up_clear, down_clear, right_clear, left_clear,
    up_set, down_set, right_set, left_set, fgt, flt,
    vertical_difference, horizontal_difference in *;
  cbn [fst snd vertical_prev_amplitude horizontal_prev_amplitude
       set_vertical_prev_amplitude set_horizontal_prev_amplitude
       up_flag down_flag left_flag right_flag status] in *.

Ltac step_call :=
  cbn [andb orb fst snd status up_flag down_flag left_flag right_flag
       vertical_prev_amplitude horizontal_prev_amplitude
       iterator vertical_signal_stack horizontal_signal_stack cross_corr_tresh
       left_template right_template blink_template up_template down_template
       set_status set_up_flag set_down_flag set_left_flag set_right_flag
       Z.eqb Pos.eqb].

(** Splits on every comparison of floats, then on every test of a flag. *)
Ltac split_call :=
  repeat (match goal with
          | |- context [PrimFloat.ltb ?a ?b] => destruct (PrimFloat.ltb a b)
          | |- context [?a =? 1] => is_var a; destruct (a =? 1)
          end; step_call).

(** The status a call leaves. *)
Lemma status_treshold (self : classify) (v h : float) :
  status (snd (treshold self v h))
  = if up_clear self v || down_clear self v || right_clear self h || left_clear self h
    then "center"
    else if left_set self h then "left"
    else if right_set self h then "right"
    else if down_set self v then "down"
    else if up_set self v then "up"
    else status self.
Proof.
  destruct self as [vp hp lf rf uf df st it vs hs cc lt rt bt ut dt].
  open_call. split_call; reflexivity.
Qed.

Lemma vertical_prev_amplitude_treshold (self : classify) (v h : float) :
  vertical_prev_amplitude (snd (treshold self v h)) = v.
Proof.
  destruct self as [vp hp lf rf uf df st it vs hs cc lt rt bt ut dt].
  unfold treshold, when.
  repeat match goal with
         | |- context [if ?b then _ else _] => destruct b
         end; reflexivity.
Qed.

Lemma horizontal_prev_amplitude_treshold (self : classify) (v h : float) :
  horizontal_prev_amplitude (snd (treshold self v h)) = h.
Proof.
  destruct self as [vp hp lf rf uf df st it vs hs cc lt rt bt ut dt].
  unfold treshold, when.
  repeat match goal with
         | |- context [if ?b then _ else _] => destruct b
         end; reflexivity.
Qed.

(** A call whose two deltas are neither above [0.5] nor below [-0.5]. *)
Lemma treshold_quiet (self : classify) (v h : float) :
  fgt (vertical_difference self v) difference_tresh = false ->
  flt (vertical_difference self v) (- difference_tresh)%float = false ->
  fgt (horizontal_difference self h) difference_tresh = false ->
  flt (horizontal_difference self h) (- difference_tresh)%float = false ->
  treshold self v h
  = (status self,
     set_vertical_prev_amplitude v (set_horizontal_prev_amplitude h self)).
Proof.
  destruct self as [vp hp lf rf uf df st it vs hs cc lt rt bt ut dt].
  intros Hvu Hvd Hhu Hhd. open_call.
  rewrite Hvu, Hvd, Hhu, Hhd. rewrite !andb_false_r. step_call.
  rewrite ?andb_false_r. reflexivity.
Qed.

(** ** The worked example *)

Lemma classify_stream_cons (self : classify) (v h : float) (rest : list (float * float)) :
  fst (classify_stream self ((v, h) :: rest))
  = status (snd (treshold self v h))
    :: fst (classify_stream (snd (treshold self v h)) rest).
Proof.
  cbn [classify_stream].
  change (status (snd (treshold self v h))) with (fst (treshold self v h)).
  destruct (treshold self v h) as [s self']. cbn [fst snd].
  destruct (classify_stream self' rest) as [ss self'']. reflexivity.
Qed.

(** The status left by a call whose horizontal delta is neither above
    [0.5] nor below [-0.5]. *)
Lemma status_quiet_horizontal (self : classify) (v h : float) :
  fgt (horizontal_difference self h) difference_tresh = false ->
  flt (horizontal_difference self h) (- difference_tresh)%float = false ->
  status (snd (treshold self v h))
  = if up_clear self v || down_clear self v then "center"
    else if down_set self v then "down"
    else if up_set self v then "up"
    else status self.
Proof.
  intros Hup Hdown. rewrite status_treshold.
  unfold right_clear, left_clear, right_set, left_set.
  rewrite Hup, Hdown, !andb_false_r, !orb_false_r. reflexivity.
Qed.

(** The first call of the example, on a fresh object: the vertical
    amplitude 0 fires no test, and the horizontal amplitude [h] is its own
    delta. *)
Lemma first_status_of_example (h : float) :
  status (snd (treshold new_classify 0 h))
  = if flt h (- difference_tresh)%float then "left"
    else if fgt h upper_thresh_horizontal then "right"
    else "centre".
Proof.
  rewrite status_treshold.
  replace (up_clear new_classify 0) with false by (vm_compute; reflexivity).
  replace (down_clear new_classify 0) with false by (vm_compute; reflexivity).
  replace (up_set new_classify 0) with false by (vm_compute; reflexivity).
  replace (down_set new_classify 0) with false by (vm_compute; reflexivity).
  unfold right_clear, left_clear, right_set, left_set, horizontal_difference.
  cbn [new_classify horizontal_prev_amplitude right_flag left_flag orb].
  rewrite sub_zero_r.
  destruct (flt h (- difference_tresh)%float) eqn:Hlow.
  - rewrite (below_minus_half_is_below_lower h Hlow).
    rewrite (delta_down_excludes_up h Hlow), !andb_false_r. reflexivity.
  - rewrite !andb_false_r.
    destruct (fgt h upper_thresh_horizontal) eqn:Hhigh.
    + rewrite (above_upper_is_above_half h Hhigh). reflexivity.
    + reflexivity.
Qed.

(** The vertical part of the state along the example, and the status its
    later calls leave. *)
Lemma vertical_step (self : classify) (v h vp : float) (uf df : Z) (c s u d : bool) :
  vertical_prev_amplitude self = vp -> up_flag self = uf -> down_flag self = df ->
  horizontal_prev_amplitude self = h ->
  ((if fgt v upper_thresh_vertical && fgt (v - vp)%float difference_tresh then 1 else uf) =? 1)
    && flt (v - vp)%float (- difference_tresh)%float = c ->
  ((if flt v lower_thresh_vertical && flt (v - vp)%float (- difference_tresh)%float
    then 1 else df) =? 1)
    && fgt (v - vp)%float difference_tresh = s ->
  fgt v upper_thresh_vertical && fgt (v - vp)%float difference_tresh = u ->
  flt v lower_thresh_vertical && flt (v - vp)%float (- difference_tresh)%float = d ->
  vertical_prev_amplitude (snd (treshold self v h)) = v
  /\ horizontal_prev_amplitude (snd (treshold self v h)) = h
  /\ up_flag (snd (treshold self v h)) = (if c then 0 else if u then 1 else uf)
  /\ down_flag (snd (treshold self v h)) = (if s then 0 else if d then 1 else df)
  /\ status (snd (treshold self v h))
     = (if c || s then "center" else if d then "down" else if u then "up" else status self).
Proof.
  intros Hvp Huf Hdf Hhp Hc Hs Hu Hd.
  assert (Huc : up_clear self v = c).
  { unfold up_clear, up_set, vertical_difference. rewrite Hvp, Huf. exact Hc. }
  assert (Hdc : down_clear self v = s).
  { unfold down_clear, down_set, vertical_difference. rewrite Hvp, Hdf. exact Hs. }
  assert (Hus : up_set self v = u).
  { unfold up_set, vertical_difference. rewrite Hvp. exact Hu. }
  assert (Hds : down_set self v = d).
  { unfold down_set, vertical_difference. rewrite Hvp. exact Hd. }
  destruct (sub_self_quiet h) as [Hq1 Hq2].
  rewrite vertical_prev_amplitude_treshold, horizontal_prev_amplitude_treshold.
  rewrite up_flag_treshold, down_flag_treshold, status_quiet_horizontal;
    unfold horizontal_difference; rewrite ?Hhp; try assumption.
  rewrite Huc, Hdc, Hus, Hds, Huf, Hdf. repeat split.
Qed.

Lemma statuses_of_example (h : float) :
  fst (classify_stream new_classify (example_stream h))
  = [status (snd (treshold new_classify 0 h));
     status (snd (treshold new_classify 0 h)); "up"; "up"].
Proof.
  unfold example_stream. rewrite !classify_stream_cons. cbn [classify_stream fst].
  set (s1 := snd (treshold new_classify 0 h)).
  assert (H1 : vertical_prev_amplitude s1 = 0%float /\ horizontal_prev_amplitude s1 = h
               /\ up_flag s1 = 0 /\ down_flag s1 = 0).
  { unfold s1.
    rewrite vertical_prev_amplitude_treshold, horizontal_prev_amplitude_treshold,
      up_flag_treshold, down_flag_treshold.
    repeat split; vm_compute; reflexivity. }
  destruct H1 as [Hvp1 [Hhp1 [Huf1 Hdf1]]].
  destruct (vertical_step s1 50 h 0 0 0 false false false false
              Hvp1 Huf1 Hdf1 Hhp1 eq_refl eq_refl eq_refl eq_refl)
    as [Hvp2 [Hhp2 [Huf2 [Hdf2 Hst2]]]].
  set (s2 := snd (treshold s1 50 h)) in *.
  destruct (vertical_step s2 101 h 50 0 0 false false true false
              Hvp2 Huf2 Hdf2 Hhp2 eq_refl eq_refl eq_refl eq_refl)
    as [Hvp3 [Hhp3 [Huf3 [Hdf3 Hst3]]]].
  set (s3 := snd (treshold s2 101 h)) in *.
  destruct (vertical_step s3 101.6 h 101 1 0 false false true false
              Hvp3 Huf3 Hdf3 Hhp3 eq_refl eq_refl eq_refl eq_refl)
    as [_ [_ [_ [_ Hst4]]]].
  rewrite Hst2, Hst3, Hst4. reflexivity.
Qed.

(** C1, as the code runs it: with the thresholds of [treshold] (100, 100,
    0.5) and the horizontal amplitude held at any [h], the vertical
    amplitudes 0, 50, 101, 101.6 fed to a fresh classifier return the
    labels L, L, Up, Up, where L is Left when [h < -0.5] (the first delta is
    taken against the initial 0), Right when [h > 3], and Center otherwise.
    For [h] below the horizontal thresholds ([h < 2]) the labels are
    Center, Center, Up, Up, or Left, Left, Up, Up when [h < -0.5]. *)
Theorem example_stream_labels (h : float) :
  fst (classify_stream new_classify (example_stream h))
  = [ (if flt h (- difference_tresh)%float then "left"
       else if fgt h upper_thresh_horizontal then "right" else "centre");
      (if flt h (- difference_tresh)%float then "left"
       else if fgt h upper_thresh_horizontal then "right" else "centre");
      "up"; "up" ]
  /\ map label_of_status (fst (classify_stream new_classify (example_stream h)))
     = [ (if flt h (- difference_tresh)%float then Some Left
          else if fgt h upper_thresh_horizontal then Some Right else Some Center);
         (if flt h (- difference_tresh)%float then Some Left
          else if fgt h upper_thresh_horizontal then Some Right else Some Center);
         Some Up; Some Up ]
  /\ (flt h lower_thresh_horizontal = true ->
      map label_of_status (fst (classify_stream new_classify (example_stream h)))
      = if flt h (- difference_tresh)%float
        then [Some Left; Some Left; Some Up; Some Up]
        else [Some Center; Some Center; Some Up; Some Up]).
Proof.
  rewrite statuses_of_example, first_status_of_example.
  repeat match goal with |- _ /\ _ => split end.
  - reflexivity.
  - destruct (flt h (- difference_tresh)%float), (fgt h upper_thresh_horizontal);
      reflexivity.
  - intros Hlow. rewrite (below_lower_is_not_above_upper h Hlow).
    destruct (flt h (- difference_tresh)%float); reflexivity.
Qed.

(** The horizontal amplitude held at -1, below both horizontal thresholds. *)
Lemma example_stream_labels_witness :
  map label_of_status (fst (classify_stream new_classify (example_stream (-1))))
  = [Some Left; Some Left; Some Up; Some Up].
Proof.
  exact (proj2 (proj2 (example_stream_labels (-1))) eq_refl).
Defined.

(** C1 as stated fails: the third call (amplitude 101, above the upper
    threshold 100, delta 51 above 0.5) already returns Up, so the labels are
    not Center, Center, Center, Up. *)
Lemma example_stream_third_label_is_up :
  nth_error (map label_of_status (fst (classify_stream new_classify (example_stream 0)))) 2
  = Some (Some Up)
  /\ map label_of_status (fst (classify_stream new_classify (example_stream 0)))
     <> [Some Center; Some Center; Some Center; Some Up].
Proof. split; vm_compute; [reflexivity | discriminate]. Qed.

(** The same labels come out for another constant horizontal amplitude
    below both horizontal thresholds. *)
Example example_stream_labels_h1 :
  fst (classify_stream new_classify (example_stream 1)) = ["centre"; "centre"; "up"; "up"].
Proof. vm_compute; reflexivity. Qed.

(** The last delta of the example is computed in binary64: it is not 0.6 but
    it is above 0.5. *)
Example example_last_delta :
  (101.6 - 101)%float = 0.59999999999999432%float
  /\ fgt (101.6 - 101)%float difference_tresh = true.
Proof. split; vm_compute; reflexivity. Qed.

(** ** Previous amplitudes *)

(** C8: every call of [treshold] stores the amplitudes of its sample as the
    previous amplitudes, whatever the tests do, so the deltas of the next
    call are taken against the sample of this one. *)
Theorem prev_amplitudes_always_updated (self : classify) (v h v' h' : float) :
  vertical_prev_amplitude (snd (treshold self v h)) = v
  /\ horizontal_prev_amplitude (snd (treshold self v h)) = h
  /\ vertical_difference (snd (treshold self v h)) v' = (v' - v)%float
  /\ horizontal_difference (snd (treshold self v h)) h' = (h' - h)%float.
Proof.
  assert (Hv : vertical_prev_amplitude (snd (treshold self v h)) = v).
  { run_treshold self. split_tests; reflexivity. }
  assert (Hh : horizontal_prev_amplitude (snd (treshold self v h)) = h).
  { run_treshold self. split_tests; reflexivity. }
  unfold vertical_difference, horizontal_difference.
  rewrite Hv, Hh. repeat split; reflexivity.
Qed.

(** ** No blink *)

(** The statuses the threshold classifier can hold. *)
Definition threshold_status (s : string) : Prop :=
  s = "centre" \/ s = "center" \/ s = "up" \/ s = "down" \/ s = "left" \/ s = "right".

Lemma treshold_returns_status self v h :
  fst (treshold self v h) = status (snd (treshold self v h)).
Proof. reflexivity. Qed.

Lemma treshold_keeps_threshold_status self v h :
  threshold_status (status self) -> threshold_status (status (snd (treshold self v h))).
Proof.
  unfold threshold_status. intros Hs. run_treshold self.
  split_tests; cbn in *; tauto.
Qed.

Lemma threshold_status_label s :
  threshold_status s -> exists d, label_of_status s = Some d /\ d <> Blink.
Proof.
  unfold threshold_status.
  intros [-> | [-> | [-> | [-> | [-> | ->]]]]]; cbn; eexists; (split; [reflexivity | discriminate]).
Qed.

Lemma classify_stream_statuses samples : forall self,
  threshold_status (status self) ->
  Forall threshold_status (fst (classify_stream self samples)).
Proof.
  induction samples as [| [v h] rest IH]; intros self Hs; cbn [classify_stream].
  - constructor.
  - pose proof (treshold_keeps_threshold_status self v h Hs) as Hs'.
    pose proof (treshold_returns_status self v h) as Hret.
    destruct (treshold self v h) as [s self'] eqn:Hcall. cbn [fst snd] in *.
    specialize (IH self' Hs').
    destruct (classify_stream self' rest) as [ss self'']. cbn [fst] in *.
    constructor; [congruence | exact IH].
Qed.

(** C9: whatever samples a fresh threshold classifier is fed, every status
    it returns reads as a label other than Blink; the blink status comes out
    of the label block of the correlation matcher. *)
Theorem threshold_never_blink (samples : list (float * float)) :
  Forall (fun s => exists d, label_of_status s = Some d /\ d <> Blink)
         (fst (classify_stream new_classify samples))
  /\ label_of_status
       (status (Correlation.select_status (0, 0) (0, 0) (0, 0) (0, 0) (1, 0) new_classify)%float)
     = Some Blink.
Proof.
  split; [| vm_compute; reflexivity].
  eapply Forall_impl; [exact threshold_status_label |].
  apply classify_stream_statuses. unfold threshold_status; cbn; tauto.
Qed.

(** ** How many flags change in a call *)

(** C6 as stated fails: the fresh classifier is a reachable state, and the
    call with the sample (101, 4) raises the up flag and the right flag. *)
Lemma two_flags_change_in_one_call :
  reachable new_classify
  /\ flags_changed new_classify (snd (treshold new_classify 101 4)) = 2%nat
  /\ ~ (flags_changed new_classify (snd (treshold new_classify 101 4)) <= 1)%nat.
Proof.
  split; [constructor | split].
  - vm_compute; reflexivity.
  - intros H. vm_compute in H. lia.
Qed.

(** C6, as the code has it: the two axes are handled independently.  On
    each axis a call raises at most one of the two flags and lowers at most
    one of them; over both axes all four flags can change in one call, as
    they do from the reachable state [down_left_raised] on the sample
    (101, 4). *)
Theorem flag_changes_per_axis (self : classify) (v h : float) :
  ~ (becomes 1 up_flag self (snd (treshold self v h))
     /\ becomes 1 down_flag self (snd (treshold self v h)))
  /\ ~ (becomes 1 right_flag self (snd (treshold self v h))
        /\ becomes 1 left_flag self (snd (treshold self v h)))
  /\ ~ (becomes 0 up_flag self (snd (treshold self v h))
        /\ becomes 0 down_flag self (snd (treshold self v h)))
  /\ ~ (becomes 0 right_flag self (snd (treshold self v h))
        /\ becomes 0 left_flag self (snd (treshold self v h)))
  /\ reachable down_left_raised
  /\ flags_changed down_left_raised (snd (treshold down_left_raised 101 4)) = 4%nat.
Proof.
  repeat match goal with |- _ /\ _ => split end.
  - intros [Hu Hd].
    apply (rise_needs_set _ _ _ _ _ (up_flag_treshold self v h)) in Hu.
    apply (rise_needs_set _ _ _ _ _ (down_flag_treshold self v h)) in Hd.
    exact (delta_not_both _ (up_set_delta _ _ Hu) (down_set_delta _ _ Hd)).
  - intros [Hr Hl].
    apply (rise_needs_set _ _ _ _ _ (right_flag_treshold self v h)) in Hr.
    apply (rise_needs_set _ _ _ _ _ (left_flag_treshold self v h)) in Hl.
    exact (delta_not_both _ (right_set_delta _ _ Hr) (left_set_delta _ _ Hl)).
  - intros [Hu Hd].
    apply (fall_needs_clear _ _ _ _ _ (up_flag_treshold self v h)) in Hu.
    apply (fall_needs_clear _ _ _ _ _ (down_flag_treshold self v h)) in Hd.
    exact (delta_not_both _ (down_clear_delta _ _ Hd) (up_clear_delta _ _ Hu)).
  - intros [Hr Hl].
    apply (fall_needs_clear _ _ _ _ _ (right_flag_treshold self v h)) in Hr.
    apply (fall_needs_clear _ _ _ _ _ (left_flag_treshold self v h)) in Hl.
    exact (delta_not_both _ (left_clear_delta _ _ Hl) (right_clear_delta _ _ Hr)).
  - unfold down_left_raised. apply reachable_step, reachable_new.
  - vm_compute; reflexivity.
Qed.

(** ** A flag set in a call survives the call *)

(** A clearing test that fires found its flag raised by an earlier call. *)
Lemma clear_reads_old_flag (set : bool) (flag : Z) (below : bool) :
  (set = true -> ((if set then 1 else flag) =? 1) && below = false) ->
  ((if set then 1 else flag) =? 1) && below = true ->
  set = false /\ flag = 1.
Proof.
  destruct set; intros Hno Hclear.
  - rewrite (Hno eq_refl) in Hclear. discriminate.
  - split; [reflexivity|]. apply andb_prop in Hclear. apply Z.eqb_eq. tauto.
Qed.

(** C10: with [difference_tresh = 0.5], when the setting test of a flag
    fires in a call, the clearing test of that flag does not fire in the
    same call and the flag is 1 when the call returns; and when a clearing
    test fires, its flag was not set in this call but held 1 on entry. *)
Theorem set_flag_not_cleared_in_same_call (self : classify) (v h : float) :
  (up_set self v = true ->
     up_clear self v = false /\ up_flag (snd (treshold self v h)) = 1)
  /\ (down_set self v = true ->
        down_clear self v = false /\ down_flag (snd (treshold self v h)) = 1)
  /\ (right_set self h = true ->
        right_clear self h = false /\ right_flag (snd (treshold self v h)) = 1)
  /\ (left_set self h = true ->
        left_clear self h = false /\ left_flag (snd (treshold self v h)) = 1)
  /\ (up_clear self v = true -> up_set self v = false /\ up_flag self = 1)
  /\ (down_clear self v = true -> down_set self v = false /\ down_flag self = 1)
  /\ (right_clear self h = true -> right_set self h = false /\ right_flag self = 1)
  /\ (left_clear self h = true -> left_set self h = false /\ left_flag self = 1).
Proof.
  repeat match goal with |- _ /\ _ => split end.
  - intros Hs. pose proof (up_set_no_clear _ _ Hs) as Hc.
    split; [exact Hc|]. rewrite up_flag_treshold, Hc, Hs. reflexivity.
  - intros Hs. pose proof (down_set_no_clear _ _ Hs) as Hc.
    split; [exact Hc|]. rewrite down_flag_treshold, Hc, Hs. reflexivity.
  - intros Hs. pose proof (right_set_no_clear _ _ Hs) as Hc.
    split; [exact Hc|]. rewrite right_flag_treshold, Hc, Hs. reflexivity.
  - intros Hs. pose proof (left_set_no_clear _ _ Hs) as Hc.
    split; [exact Hc|]. rewrite left_flag_treshold, Hc, Hs. reflexivity.
  - apply clear_reads_old_flag. exact (up_set_no_clear self v).
  - apply clear_reads_old_flag. exact (down_set_no_clear self v).
  - apply clear_reads_old_flag. exact (right_set_no_clear self h).
  - apply clear_reads_old_flag. exact (left_set_no_clear self h).
Qed.

(** The call with sample (101, 0) on a fresh classifier sets the up flag. *)
Lemma set_flag_not_cleared_witness :
  up_set new_classify 101 = true
  /\ up_clear new_classify 101 = false
  /\ up_flag (snd (treshold new_classify 101 0)) = 1.
Proof.
  assert (Hs : up_set new_classify 101 = true) by (vm_compute; reflexivity).
  split; [exact Hs|].
  exact (proj1 (set_flag_not_cleared_in_same_call new_classify 101 0) Hs).
Defined.

End ThresholdFacts.

(** * Properties of the correlation matcher *)

Module CorrelationFacts.
Import Correlation.

Definition is_list (o : pyobj) : bool :=
  match o with
  | PyList _ => true
  | _ => false
  end.

(** ** What the two halves of [template_match] leave alone *)

(** The label block writes [self.status] and nothing else. *)
Lemma select_status_frame lc rc uc dc bc self :
  select_status lc rc uc dc bc self
  = set_status (status (select_status lc rc uc dc bc self)) self.
Proof.
  destruct self. unfold select_status, when.
  destruct (fgt (fst lc) 0.9), (fgt (fst rc) 0.9), (fgt (fst uc) 0.9),
    (fgt (fst dc) 0.9), (fgt (fst bc) 0.9); reflexivity.
Qed.

Lemma set_status_same self : set_status (status self) self = self.
Proof. destruct self; reflexivity. Qed.

Lemma correlate_frame p self :
  snd (correlate p self) = set_status (status (snd (correlate p self))) self.
Proof.
  unfold correlate.
  repeat match goal with
         | |- context [match p ?x ?y with _ => _ end] => destruct (p x y)
         end; cbn [snd]; try (symmetry; apply set_status_same).
  rewrite <- select_status_frame. reflexivity.
Qed.

Lemma vertical_signal_stack_set_status x self :
  vertical_signal_stack (set_status x self) = vertical_signal_stack self.
Proof. destruct self; reflexivity. Qed.

Lemma horizontal_signal_stack_set_status x self :
  horizontal_signal_stack (set_status x self) = horizontal_signal_stack self.
Proof. destruct self; reflexivity. Qed.

Lemma iterator_set_status x self : iterator (set_status x self) = iterator self.
Proof. destruct self; reflexivity. Qed.

(** ** The append statements *)

(** Once the vertical stack is no list, the first statement raises and the
    state is left as it was. *)
Lemma stack_step_without_list self v h n :
  is_list (vertical_signal_stack self) = false ->
  stack_step self v h n = (Raise AttributeError, self).
Proof.
  unfold stack_step.
  destruct (vertical_signal_stack self); cbn; intros H; try reflexivity; discriminate.
Qed.

(** With two lists on entry, both attributes are left holding [None], and
    the eviction, when its guard holds, raises on [None.pop]. *)
Lemma stack_step_with_lists self v h n lv lh :
  vertical_signal_stack self = PyList lv ->
  horizontal_signal_stack self = PyList lh ->
  stack_step self v h n
  = (if iterator self >? n then Raise AttributeError else Ok tt,
     set_horizontal_signal_stack PyNone (set_vertical_signal_stack PyNone self)).
Proof.
  destruct self as [vp hp lf rf uf df st it vs hs cc lt rt bt ut dt].
  cbn. intros -> ->. unfold stack_step. cbn.
  destruct (it >? n); reflexivity.
Qed.

(** Whatever the state on entry, no list is left in the vertical stack. *)
Lemma stack_step_leaves_no_list self v h n :
  is_list (vertical_signal_stack (snd (stack_step self v h n))) = false.
Proof.
  destruct (is_list (vertical_signal_stack self)) eqn:Hl.
  - destruct self as [vp hp lf rf uf df st it vs hs cc lt rt bt ut dt].
    cbn in Hl. destruct vs; try discriminate.
    unfold stack_step. cbn.
    destruct hs; cbn; try reflexivity.
    destruct (it >? n); reflexivity.
  - rewrite stack_step_without_list by exact Hl. exact Hl.
Qed.

Lemma template_match_leaves_no_list p self v h n :
  is_list (vertical_signal_stack (snd (template_match p self v h n))) = false.
Proof.
  unfold template_match.
  pose proof (stack_step_leaves_no_list self v h n) as H.
  destruct (stack_step self v h n) as [[u | e] self']; cbn [snd] in *.
  - rewrite correlate_frame, vertical_signal_stack_set_status. exact H.
  - exact H.
Qed.

Lemma template_match_without_list p self v h n :
  is_list (vertical_signal_stack self) = false ->
  template_match p self v h n = (Raise AttributeError, self).
Proof.
  intros H. unfold template_match. rewrite stack_step_without_list by exact H.
  reflexivity.
Qed.

(** A stream fed to an object whose vertical stack is no list: every call
    raises [AttributeError] and the state never changes. *)
Lemma match_stream_without_list p n samples : forall self,
  is_list (vertical_signal_stack self) = false ->
  Forall (fun r => r = Raise AttributeError) (fst (match_stream p self samples n))
  /\ snd (match_stream p self samples n) = self.
Proof.
  induction samples as [| [v h] rest IH]; intros self H; cbn [match_stream].
  - split; [constructor | reflexivity].
  - rewrite template_match_without_list by exact H.
    destruct (IH self H) as [Hall Hsame].
    destruct (match_stream p self rest n) as [rs self'']. cbn [fst snd] in *.
    split; [constructor; [reflexivity | exact Hall] | exact Hsame].
Qed.

(** ** Successive calls *)

(** C2 fails in the code: after any call of [template_match] on an object,
    whatever that call did, every later call on the same object raises
    [AttributeError], for the first call has stored the [None] returned by
    [append] in place of the vertical stack.  So a stream of samples fed to
    the correlation matcher fails from its second sample on. *)
Theorem template_match_fails_after_first_call p self v h n v' h' n' samples :
  fst (template_match p (snd (template_match p self v h n)) v' h' n') = Raise AttributeError
  /\ Forall (fun r => r = Raise AttributeError)
            (tl (fst (match_stream p self ((v, h) :: samples) n))).
Proof.
  pose proof (template_match_leaves_no_list p self v h n) as Hno.
  split.
  - rewrite template_match_without_list by exact Hno. reflexivity.
  - cbn [match_stream].
    destruct (template_match p self v h n) as [r self']. cbn [snd] in Hno.
    destruct (match_stream_without_list p n samples self' Hno) as [Hall _].
    destruct (match_stream p self' samples n) as [rs self'']. exact Hall.
Qed.

(** ** The signal windows *)

(** [template_match] never assigns [self.iterator]. *)
Lemma template_match_iterator p self v h n :
  iterator (snd (template_match p self v h n)) = iterator self.
Proof.
  unfold template_match.
  assert (Hs : iterator (snd (stack_step self v h n)) = iterator self).
  { destruct self as [vp hp lf rf uf df st it vs hs cc lt rt bt ut dt].
    unfold stack_step. cbn.
    destruct vs; cbn; try reflexivity;
      destruct hs; cbn; try reflexivity;
      destruct (it >? n); try reflexivity;
      destruct l; cbn; try reflexivity. }
  destruct (stack_step self v h n) as [[u | e] self']; cbn [snd] in *.
  - rewrite correlate_frame, iterator_set_status. exact Hs.
  - exact Hs.
Qed.

(** A call entered with two lists leaves [None] in both stacks. *)
Lemma template_match_with_lists p self v h n lv lh :
  vertical_signal_stack self = PyList lv ->
  horizontal_signal_stack self = PyList lh ->
  vertical_signal_stack (snd (template_match p self v h n)) = PyNone
  /\ horizontal_signal_stack (snd (template_match p self v h n)) = PyNone.
Proof.
  intros Hv Hh. unfold template_match.
  rewrite (stack_step_with_lists self v h n lv lh Hv Hh).
  assert (Hs : forall x,
    vertical_signal_stack
      (set_status x (set_horizontal_signal_stack PyNone (set_vertical_signal_stack PyNone self)))
    = PyNone
    /\ horizontal_signal_stack
      (set_status x (set_horizontal_signal_stack PyNone (set_vertical_signal_stack PyNone self)))
    = PyNone).
  { intros x. destruct self; split; reflexivity. }
  destruct (iterator self >? n); cbn [snd].
  - rewrite <- (set_status_same (set_horizontal_signal_stack _ _)). apply Hs.
  - rewrite correlate_frame. apply Hs.
Qed.

(** C4 fails in the code: the windows are no FIFO.  Whatever the library
    function answers, after one sample or more fed to a fresh object both
    stacks hold [None] and the iterator is still 0; after the pushes 1, 2,
    3, 4 with template size 3 the vertical stack is [None], not
    [[2; 3; 4]]. *)
Theorem window_is_lost_by_first_push p s samples n :
  vertical_signal_stack (snd (match_stream p new_classify (s :: samples) n)) = PyNone
  /\ horizontal_signal_stack (snd (match_stream p new_classify (s :: samples) n)) = PyNone
  /\ iterator (snd (match_stream p new_classify (s :: samples) n)) = 0
  /\ vertical_signal_stack
       (snd (match_stream p new_classify [(1, 0); (2, 0); (3, 0); (4, 0)]%float 3))
     <> PyList [2; 3; 4]%float.
Proof.
  assert (Hgen : forall s samples n,
    vertical_signal_stack (snd (match_stream p new_classify (s :: samples) n)) = PyNone
    /\ horizontal_signal_stack (snd (match_stream p new_classify (s :: samples) n)) = PyNone
    /\ iterator (snd (match_stream p new_classify (s :: samples) n)) = 0).
  { clear. intros [v h] samples n. cbn [match_stream].
    pose proof (template_match_leaves_no_list p new_classify v h n) as Hno.
    pose proof (template_match_iterator p new_classify v h n) as Hit.
    destruct (template_match_with_lists p new_classify v h n [] [] eq_refl eq_refl)
      as [Hv Hh].
    destruct (template_match p new_classify v h n) as [r self']. cbn [snd] in *.
    destruct (match_stream_without_list p n samples self' Hno) as [_ Hsame].
    destruct (match_stream p self' samples n) as [rs self'']. cbn [snd] in *.
    subst self''. repeat split; assumption. }
  destruct (Hgen s samples n) as [Hv [Hh Hit]].
  repeat match goal with |- _ /\ _ => split end; try assumption.
  destruct (Hgen (1, 0)%float [(2, 0); (3, 0); (4, 0)]%float 3) as [Hv' _].
  rewrite Hv'. discriminate.
Qed.

(** ** No guard on the window length *)




(** ** The label block *)

Lemma status_select_status lc rc uc dc bc self :
  status (select_status lc rc uc dc bc self)
  = if fgt (fst bc) 0.9 then "blink"
    else if fgt (fst dc) 0.9 then "down"
    else if fgt (fst uc) 0.9 then "up"
    else if fgt (fst rc) 0.9 then "right"
    else if fgt (fst lc) 0.9 then "left"
    else status self.
Proof.
  destruct self. unfold select_status, when.
  destruct (fgt (fst lc) 0.9), (fgt (fst rc) 0.9), (fgt (fst uc) 0.9),
    (fgt (fst dc) 0.9), (fgt (fst bc) 0.9); reflexivity.
Qed.

(** What [correlate] returns once the five comparisons have answered. *)
Lemma correlate_answers p self lc rc uc dc bc :
  p (horizontal_signal_stack self) (left_template self) = Ok lc ->
  p (horizontal_signal_stack self) (right_template self) = Ok rc ->
  p (vertical_signal_stack self) (up_template self) = Ok uc ->
  p (vertical_signal_stack self) (down_template self) = Ok dc ->
  p (vertical_signal_stack self) (blink_template self) = Ok bc ->
  correlate p self
  = (Ok (status (select_status lc rc uc dc bc self)), select_status lc rc uc dc bc self).
Proof.
  intros Hl Hr Hu Hd Hb. unfold correlate. rewrite Hl, Hr, Hu, Hd, Hb. reflexivity.
Qed.

(** C5 as stated fails: a correlation of exactly 0.9 against the left
    template, and 0 against the others, is no match: the status stays the
    one held before, and the label is not Left. *)
Lemma correlation_at_threshold_is_no_match :
  status (select_status (0.9, 0) (0, 1) (0, 1) (0, 1) (0, 1) new_classify)%float = "centre"
  /\ label_of_status
       (status (select_status (0.9, 0) (0, 1) (0, 1) (0, 1) (0, 1) new_classify)%float)
     <> Some Left.
Proof. split; vm_compute; [reflexivity | discriminate]. Qed.

(** C5, as the code has it: the five tests run in the order left, right,
    up, down, blink and each match overwrites the status, so the last
    gesture in that order whose correlation is strictly above 0.9 gives the
    returned status, and the status held before is returned when there is
    none. *)
Theorem last_match_above_threshold_wins p self lc rc uc dc bc :
  p (horizontal_signal_stack self) (left_template self) = Ok lc ->
  p (horizontal_signal_stack self) (right_template self) = Ok rc ->
  p (vertical_signal_stack self) (up_template self) = Ok uc ->
  p (vertical_signal_stack self) (down_template self) = Ok dc ->
  p (vertical_signal_stack self) (blink_template self) = Ok bc ->
  fst (correlate p self)
  = Ok (if fgt (fst bc) 0.9 then "blink"
        else if fgt (fst dc) 0.9 then "down"
        else if fgt (fst uc) 0.9 then "up"
        else if fgt (fst rc) 0.9 then "right"
        else if fgt (fst lc) 0.9 then "left"
        else status self).
Proof.
  intros Hl Hr Hu Hd Hb.
  rewrite (correlate_answers p self lc rc uc dc bc Hl Hr Hu Hd Hb). cbn [fst].
  rewrite status_select_status. reflexivity.
Qed.

(** Correlation exactly 0.9 against the left template only. *)
Lemma last_match_above_threshold_wins_witness :
  fst (correlate pearsonr_at_threshold with_left_template) = Ok "centre".
Proof.
  exact (last_match_above_threshold_wins pearsonr_at_threshold with_left_template
           (0.9, 0)%float (0, 1)%float (0, 1)%float (0, 1)%float (0, 1)%float
           eq_refl eq_refl eq_refl eq_refl eq_refl).
Defined.

(** ** The status and the append statements *)

(** The first half of [template_match] does not write the status. *)
Lemma stack_step_status self v h n :
  status (snd (stack_step self v h n)) = status self.
Proof.
  destruct self as [vp hp lf rf uf df st it vs hs cc lt rt bt ut dt].
  unfold stack_step. cbn.
  destruct vs; cbn; try reflexivity;
    destruct hs; cbn; try reflexivity;
    destruct (it >? n); try reflexivity;
    destruct l; cbn; try reflexivity.
Qed.

(** ** A signal of zero variance *)

Lemma match_stream_cons p self v h rest n :
  fst (match_stream p self ((v, h) :: rest) n)
  = fst (template_match p self v h n)
    :: fst (match_stream p (snd (template_match p self v h n)) rest n).
Proof.
  cbn [match_stream].
  destruct (template_match p self v h n) as [r self']. cbn [fst snd].
  destruct (match_stream p self' rest n) as [rs self'']. reflexivity.
Qed.

(** The outcomes of a stream fed to an object whose vertical stack is no
    list. *)
Lemma match_stream_without_list_outcomes p n samples : forall self,
  is_list (vertical_signal_stack self) = false ->
  fst (match_stream p self samples n) = repeat (Raise AttributeError) (List.length samples).
Proof.
  induction samples as [| [v h] rest IH]; intros self H.
  - reflexivity.
  - rewrite match_stream_cons, template_match_without_list by exact H.
    cbn [fst snd List.length repeat]. rewrite (IH self H). reflexivity.
Qed.

(** C7 fails in the code: no window, of zero variance or not, ever reaches
    the library function.  Fed a constant signal, a fresh object hands
    [None] to the first comparison of its first call, so that call raises
    when the function rejects [None], as SciPy does (or raises on [pop]
    when the template size is negative); and every later call raises
    [AttributeError], whatever the function does. *)
Theorem zero_variance_stream_raises p (a : float) (k : nat) (n : Z) :
  tl (fst (match_stream p new_classify (repeat (a, a) (S (S k))) n))
  = repeat (Raise AttributeError) (S k)
  /\ (forall e, 0 <= n -> p PyNone (PyInt 0) = Raise e ->
        fst (match_stream p new_classify (repeat (a, a) (S (S k))) n)
        = Raise e :: repeat (Raise AttributeError) (S k))
  /\ (n < 0 ->
        fst (match_stream p new_classify (repeat (a, a) (S (S k))) n)
        = repeat (Raise AttributeError) (S (S k))).
Proof.
  assert (Hrest :
    fst (match_stream p (snd (template_match p new_classify a a n)) (repeat (a, a) (S k)) n)
    = repeat (Raise AttributeError) (S k)).
  { rewrite match_stream_without_list_outcomes by apply template_match_leaves_no_list.
    rewrite repeat_length. reflexivity. }
  change (repeat (a, a) (S (S k))) with ((a, a) :: repeat (a, a) (S k)).
  rewrite match_stream_cons, Hrest.
  repeat match goal with |- _ /\ _ => split end.
  - reflexivity.
  - intros e Hn He. f_equal.
    unfold template_match.
    rewrite (stack_step_with_lists new_classify a a n [] [] eq_refl eq_refl).
    replace (iterator new_classify >? n) with false
      by (symmetry; rewrite Z.gtb_ltb; apply Z.ltb_ge; exact Hn).
    unfold correlate. cbn. rewrite He. reflexivity.
  - intros Hn. change (repeat (Raise AttributeError) (S (S k)))
      with (@Raise string AttributeError :: repeat (Raise AttributeError) (S k)).
    f_equal. unfold template_match.
    rewrite (stack_step_with_lists new_classify a a n [] [] eq_refl eq_refl).
    replace (iterator new_classify >? n) with true
      by (symmetry; rewrite Z.gtb_ltb; apply Z.ltb_lt; exact Hn).
    reflexivity.
Qed.

(** Three samples of amplitude 5, template size 1, and a library function
    that rejects what is no list. *)
Lemma zero_variance_stream_raises_witness :
  fst (match_stream pearsonr_rejecting new_classify (repeat (5, 5)%float 3) 1)
  = [Raise TypeError; Raise AttributeError; Raise AttributeError].
Proof.
  apply (proj1 (proj2 (zero_variance_stream_raises pearsonr_rejecting 5 1 1)) TypeError).
  - discriminate.
  - reflexivity.
Defined.

End CorrelationFacts.

(** * Further properties of the threshold classifier *)

Module ThresholdMore.
Import Threshold ThresholdFacts Views.

(** ** The flags are bits *)

Lemma flag_update_is_bit (clear set : bool) (old : Z) :
  is_bit old -> is_bit (if clear then 0 else if set then 1 else old).
Proof. unfold is_bit. destruct clear, set; tauto. Qed.

(** On every state a threshold classifier goes through, each of the four
    flags is 0 or 1. *)
Theorem reachable_flags_are_bits (self : classify) :
  reachable self ->
  is_bit (up_flag self) /\ is_bit (down_flag self)
  /\ is_bit (right_flag self) /\ is_bit (left_flag self).
Proof.
  induction 1 as [| self v h _ [Hu [Hd [Hr Hl]]]].
  - unfold is_bit; cbn; tauto.
  - rewrite up_flag_treshold, down_flag_treshold, right_flag_treshold, left_flag_treshold.
    repeat split; apply flag_update_is_bit; assumption.
Qed.

Lemma reachable_flags_are_bits_witness :
  is_bit (up_flag down_left_raised) /\ is_bit (down_flag down_left_raised)
  /\ is_bit (right_flag down_left_raised) /\ is_bit (left_flag down_left_raised).
Proof.
  apply reachable_flags_are_bits.
  unfold down_left_raised. apply reachable_step, reachable_new.
Defined.

(** ** The returned status *)

(** The status a call returns: ["center"] as soon as one clearing test
    fires, whatever the setting tests did; otherwise the direction of the
    last setting test that fired, in the order up, down, right, left;
    otherwise the status held on entry. *)
Theorem returned_status_closed_form (self : classify) (v h : float) :
  fst (treshold self v h)
  = if up_clear self v || down_clear self v || right_clear self h || left_clear self h
    then "center"
    else if left_set self h then "left"
    else if right_set self h then "right"
    else if down_set self v then "down"
    else if up_set self v then "up"
    else status self.
Proof. rewrite treshold_returns_status. apply status_treshold. Qed.

(** A call that raises the up flag while the down flag is held returns
    ["center"]: the release of the held flag hides the new direction in the
    status, though the up flag is 1 on return. *)
Theorem release_hides_new_direction (self : classify) (v h : float) :
  down_flag self = 1 ->
  up_set self v = true ->
  fst (treshold self v h) = "center"
  /\ up_flag (snd (treshold self v h)) = 1
  /\ down_flag (snd (treshold self v h)) = 0.
Proof.
  intros Hheld Hset.
  pose proof (up_set_delta _ _ Hset) as Hdelta.
  assert (Hdown : down_set self v = false).
  { unfold down_set. rewrite (delta_up_excludes_down _ Hdelta). apply andb_false_r. }
  assert (Hclear : down_clear self v = true).
  { unfold down_clear. rewrite Hdown, Hheld, Hdelta. reflexivity. }
  rewrite treshold_returns_status, status_treshold, up_flag_treshold, down_flag_treshold.
  rewrite Hclear, Hset, (up_set_no_clear _ _ Hset). repeat split.
Qed.

Lemma release_hides_new_direction_witness :
  fst (treshold down_left_raised 101 (-1)) = "center"
  /\ up_flag (snd (treshold down_left_raised 101 (-1))) = 1
  /\ down_flag (snd (treshold down_left_raised 101 (-1))) = 0.
Proof.
  apply release_hides_new_direction; vm_compute; reflexivity.
Defined.

(** [treshold] never writes the spelling ["centre"] of [__init__]: a call
    that returns it found it on entry. *)
Theorem initial_spelling_is_never_written (self : classify) (v h : float) :
  fst (treshold self v h) = "centre" -> status self = "centre".
Proof.
  rewrite treshold_returns_status, status_treshold.
  destruct (up_clear self v || down_clear self v || right_clear self h || left_clear self h);
    [discriminate|].
  destruct (left_set self h); [discriminate|].
  destruct (right_set self h); [discriminate|].
  destruct (down_set self v); [discriminate|].
  destruct (up_set self v); [discriminate|].
  tauto.
Qed.

Lemma initial_spelling_is_never_written_witness : status new_classify = "centre".
Proof.
  apply (initial_spelling_is_never_written new_classify 50 2). vm_compute; reflexivity.
Defined.

(** ** Calls that change nothing *)

(** A sample whose two deltas are neither above [0.5] nor below [-0.5]
    leaves the four flags and the status as they were: the call returns the
    status held on entry and stores the two amplitudes as the previous
    amplitudes. *)
Theorem quiet_sample_keeps_flags_and_status (self : classify) (v h : float) :
  fgt (vertical_difference self v) difference_tresh = false ->
  flt (vertical_difference self v) (- difference_tresh)%float = false ->
  fgt (horizontal_difference self h) difference_tresh = false ->
  flt (horizontal_difference self h) (- difference_tresh)%float = false ->
  fst (treshold self v h) = status self
  /\ status (snd (treshold self v h)) = status self
  /\ up_flag (snd (treshold self v h)) = up_flag self
  /\ down_flag (snd (treshold self v h)) = down_flag self
  /\ right_flag (snd (treshold self v h)) = right_flag self
  /\ left_flag (snd (treshold self v h)) = left_flag self
  /\ vertical_prev_amplitude (snd (treshold self v h)) = v
  /\ horizontal_prev_amplitude (snd (treshold self v h)) = h
  /\ flags_changed self (snd (treshold self v h)) = 0%nat.
Proof.
  intros Hvu Hvd Hhu Hhd.
  rewrite (treshold_quiet self v h Hvu Hvd Hhu Hhd).
  destruct self. unfold flags_changed, changed. cbn. rewrite !Z.eqb_refl.
  repeat split.
Qed.

Lemma quiet_sample_keeps_flags_and_status_witness :
  fst (treshold down_left_raised (-1.25) (-0.75)) = status down_left_raised
  /\ status (snd (treshold down_left_raised (-1.25) (-0.75))) = status down_left_raised
  /\ up_flag (snd (treshold down_left_raised (-1.25) (-0.75))) = up_flag down_left_raised
  /\ down_flag (snd (treshold down_left_raised (-1.25) (-0.75))) = down_flag down_left_raised
  /\ right_flag (snd (treshold down_left_raised (-1.25) (-0.75)))
     = right_flag down_left_raised
  /\ left_flag (snd (treshold down_left_raised (-1.25) (-0.75))) = left_flag down_left_raised
  /\ vertical_prev_amplitude (snd (treshold down_left_raised (-1.25) (-0.75)))
     = (-1.25)%float
  /\ horizontal_prev_amplitude (snd (treshold down_left_raised (-1.25) (-0.75)))
     = (-0.75)%float
  /\ flags_changed down_left_raised (snd (treshold down_left_raised (-1.25) (-0.75)))
     = 0%nat.
Proof.
  apply quiet_sample_keeps_flags_and_status; vm_compute; reflexivity.
Defined.

(** The fields of the state after the sample of the previous call is fed
    again. *)
Lemma treshold_repeated (self : classify) (v h : float) :
  treshold (snd (treshold self v h)) v h
  = (fst (treshold self v h), snd (treshold self v h)).
Proof.
  rewrite treshold_returns_status.
  pose proof (vertical_prev_amplitude_treshold self v h) as Hv.
  pose proof (horizontal_prev_amplitude_treshold self v h) as Hh.
  destruct (snd (treshold self v h))
    as [vp hp lf rf uf df st it vs hs cc lt rt bt ut dt].
  cbn in Hv, Hh. subst vp hp.
  rewrite treshold_quiet; [reflexivity | | | |];
    unfold vertical_difference, horizontal_difference; cbn;
    apply sub_self_quiet.
Qed.

(** Feeding the sample of the previous call again changes no flag and not
    the status, for every pair of floats, infinities and NaN included: the
    deltas are zero or NaN.  The second call returns the status of the
    first, and the flags, the status and the previous amplitudes are after
    it what they were after the first. *)
Theorem repeated_sample_changes_nothing (self : classify) (v h : float) :
  fst (treshold (snd (treshold self v h)) v h) = fst (treshold self v h)
  /\ status (snd (treshold (snd (treshold self v h)) v h))
     = status (snd (treshold self v h))
  /\ up_flag (snd (treshold (snd (treshold self v h)) v h))
     = up_flag (snd (treshold self v h))
  /\ down_flag (snd (treshold (snd (treshold self v h)) v h))
     = down_flag (snd (treshold self v h))
  /\ right_flag (snd (treshold (snd (treshold self v h)) v h))
     = right_flag (snd (treshold self v h))
  /\ left_flag (snd (treshold (snd (treshold self v h)) v h))
     = left_flag (snd (treshold self v h))
  /\ vertical_prev_amplitude (snd (treshold (snd (treshold self v h)) v h))
     = vertical_prev_amplitude (snd (treshold self v h))
  /\ horizontal_prev_amplitude (snd (treshold (snd (treshold self v h)) v h))
     = horizontal_prev_amplitude (snd (treshold self v h)).
Proof.
  rewrite (treshold_repeated self v h). cbn [fst snd]. repeat split.
Qed.

(** A NaN amplitude freezes the flags of its axis for two calls: the call
    that receives it, and the next one, whose delta is taken against it. *)
Theorem nan_amplitude_freezes_vertical_flags (self : classify) (v h v' h' : float) :
  PrimFloat.is_nan v = true ->
  up_flag (snd (treshold self v h)) = up_flag self
  /\ down_flag (snd (treshold self v h)) = down_flag self
  /\ up_flag (snd (treshold (snd (treshold self v h)) v' h')) = up_flag self
  /\ down_flag (snd (treshold (snd (treshold self v h)) v' h')) = down_flag self.
Proof.
  intros Hnan.
  assert (Hquiet : forall s x y,
    fgt (x - y)%float difference_tresh = false ->
    flt (x - y)%float (- difference_tresh)%float = false ->
    vertical_prev_amplitude s = y ->
    forall k, up_flag (snd (treshold s x k)) = up_flag s
              /\ down_flag (snd (treshold s x k)) = down_flag s).
  { intros s x y Hu Hd Hy k. rewrite up_flag_treshold, down_flag_treshold.
    unfold up_clear, down_clear, up_set, down_set, vertical_difference.
    rewrite Hy, Hu, Hd, !andb_false_r. split; reflexivity. }
  destruct (sub_nan_quiet v (vertical_prev_amplitude self) (or_introl Hnan)) as [Hu Hd].
  destruct (Hquiet self v _ Hu Hd eq_refl h) as [H1 H2].
  destruct (sub_nan_quiet v' v (or_intror Hnan)) as [Hu' Hd'].
  destruct (Hquiet (snd (treshold self v h)) v' v Hu' Hd'
              (vertical_prev_amplitude_treshold self v h) h') as [H3 H4].
  rewrite H3, H4, H1, H2. repeat split.
Qed.

Lemma nan_amplitude_freezes_vertical_flags_witness :
  up_flag (snd (treshold down_left_raised nan 0)) = up_flag down_left_raised
  /\ down_flag (snd (treshold down_left_raised nan 0)) = down_flag down_left_raised
  /\ up_flag (snd (treshold (snd (treshold down_left_raised nan 0)) 101 0))
     = up_flag down_left_raised
  /\ down_flag (snd (treshold (snd (treshold down_left_raised nan 0)) 101 0))
     = down_flag down_left_raised.
Proof.
  apply nan_amplitude_freezes_vertical_flags. vm_compute; reflexivity.
Defined.

(** ** Hysteresis *)

Lemma held_flag_update (set below : bool) :
  (if ((if set then 1 else 1) =? 1) && below then 0 else if set then 1 else 1)
  = if below then 0 else 1.
Proof. destruct set, below; reflexivity. Qed.

(** A flag held on entry is released by a delta beyond [0.5] in the
    opposite direction, and by nothing else: the amplitude thresholds play
    no part in the release. *)
Theorem held_flag_released_by_opposite_delta (self : classify) (v h : float) :
  (up_flag self = 1 ->
     up_flag (snd (treshold self v h))
     = if flt (vertical_difference self v) (- difference_tresh)%float then 0 else 1)
  /\ (down_flag self = 1 ->
        down_flag (snd (treshold self v h))
        = if fgt (vertical_difference self v) difference_tresh then 0 else 1)
  /\ (right_flag self = 1 ->
        right_flag (snd (treshold self v h))
        = if flt (horizontal_difference self h) (- difference_tresh)%float then 0 else 1)
  /\ (left_flag self = 1 ->
        left_flag (snd (treshold self v h))
        = if fgt (horizontal_difference self h) difference_tresh then 0 else 1).
Proof.
  repeat match goal with |- _ /\ _ => split end; intros Hheld.
  - rewrite up_flag_treshold. unfold up_clear. rewrite Hheld. apply held_flag_update.
  - rewrite down_flag_treshold. unfold down_clear. rewrite Hheld. apply held_flag_update.
  - rewrite right_flag_treshold. unfold right_clear. rewrite Hheld. apply held_flag_update.
  - rewrite left_flag_treshold. unfold left_clear. rewrite Hheld. apply held_flag_update.
Qed.

(** The down flag raised by the sample (-1, -1) is released by the
    amplitude 0, far below the vertical threshold 100. *)
Lemma held_flag_released_by_opposite_delta_witness :
  down_flag down_left_raised = 1
  /\ down_flag (snd (treshold down_left_raised 0 (-1))) = 0.
Proof.
  assert (Hheld : down_flag down_left_raised = 1) by (vm_compute; reflexivity).
  split; [exact Hheld|].
  rewrite (proj1 (proj2 (held_flag_released_by_opposite_delta down_left_raised 0 (-1))) Hheld).
  vm_compute; reflexivity.
Defined.

(** ** The two axes *)

(** The vertical flags and the stored vertical amplitude after a call
    depend on the vertical amplitude and on the vertical part of the state
    only; and likewise for the horizontal ones. *)
Theorem axes_do_not_interfere (self self' : classify) (v h v' h' : float) :
  (up_flag self = up_flag self' ->
   down_flag self = down_flag self' ->
   vertical_prev_amplitude self = vertical_prev_amplitude self' ->
   up_flag (snd (treshold self v h)) = up_flag (snd (treshold self' v h'))
   /\ down_flag (snd (treshold self v h)) = down_flag (snd (treshold self' v h'))
   /\ vertical_prev_amplitude (snd (treshold self v h))
      = vertical_prev_amplitude (snd (treshold self' v h')))
  /\ (right_flag self = right_flag self' ->
      left_flag self = left_flag self' ->
      horizontal_prev_amplitude self = horizontal_prev_amplitude self' ->
      right_flag (snd (treshold self v h)) = right_flag (snd (treshold self' v' h))
      /\ left_flag (snd (treshold self v h)) = left_flag (snd (treshold self' v' h))
      /\ horizontal_prev_amplitude (snd (treshold self v h))
         = horizontal_prev_amplitude (snd (treshold self' v' h))).
Proof.
  split; intros H1 H2 H3.
  - rewrite !up_flag_treshold, !down_flag_treshold, !vertical_prev_amplitude_treshold.
    unfold up_clear, down_clear, up_set, down_set, vertical_difference.
    rewrite H1, H2, H3. repeat split.
  - rewrite !right_flag_treshold, !left_flag_treshold, !horizontal_prev_amplitude_treshold.
    unfold right_clear, left_clear, right_set, left_set, horizontal_difference.
    rewrite H1, H2, H3. repeat split.
Qed.

(** The vertical flags of the example come out the same from a fresh
    object and from one whose left flag is raised, whatever the horizontal
    amplitudes. *)
Lemma axes_do_not_interfere_witness :
  up_flag (snd (treshold new_classify 101 0))
  = up_flag (snd (treshold (set_left_flag 1 new_classify) 101 7))
  /\ down_flag (snd (treshold new_classify 101 0))
     = down_flag (snd (treshold (set_left_flag 1 new_classify) 101 7))
  /\ vertical_prev_amplitude (snd (treshold new_classify 101 0))
     = vertical_prev_amplitude (snd (treshold (set_left_flag 1 new_classify) 101 7)).
Proof.
  exact (proj1 (axes_do_not_interfere new_classify (set_left_flag 1 new_classify)
                  101 0 101 7) eq_refl eq_refl eq_refl).
Defined.

(** ** What [treshold] leaves alone *)

Lemma when_matcher_state (b : bool) (upd : classify -> classify) (s : classify) :
  (forall c, matcher_state (upd c) = matcher_state c) ->
  matcher_state (when b upd s) = matcher_state s.
Proof. intros H. unfold when. destruct b; [apply H | reflexivity]. Qed.

Lemma matcher_state_treshold (self : classify) (v h : float) :
  matcher_state (snd (treshold self v h)) = matcher_state self.
Proof.
  unfold treshold. cbv zeta. cbn [snd].
  repeat (rewrite when_matcher_state; [| intros c; destruct c; reflexivity]).
  destruct self; reflexivity.
Qed.

(** [treshold] writes the previous amplitudes, the flags and the status:
    the iterator, the signal stacks, the correlation threshold and the
    templates are as they were on entry. *)
Theorem treshold_leaves_matcher_state (self : classify) (v h : float) :
  iterator (snd (treshold self v h)) = iterator self
  /\ vertical_signal_stack (snd (treshold self v h)) = vertical_signal_stack self
  /\ horizontal_signal_stack (snd (treshold self v h)) = horizontal_signal_stack self
  /\ cross_corr_tresh (snd (treshold self v h)) = cross_corr_tresh self
  /\ left_template (snd (treshold self v h)) = left_template self
  /\ right_template (snd (treshold self v h)) = right_template self
  /\ up_template (snd (treshold self v h)) = up_template self
  /\ down_template (snd (treshold self v h)) = down_template self
  /\ blink_template (snd (treshold self v h)) = blink_template self.
Proof.
  pose proof (matcher_state_treshold self v h) as H.
  repeat match goal with |- _ /\ _ => split end.
  - exact (f_equal (fun t => fst (fst (fst (fst t)))) H).
  - exact (f_equal (fun t => snd (fst (fst (fst t)))) H).
  - exact (f_equal (fun t => snd (fst (fst t))) H).
  - exact (f_equal (fun t => snd (fst t)) H).
  - exact (f_equal (fun t => fst (fst (fst (fst (snd t))))) H).
  - exact (f_equal (fun t => snd (fst (fst (fst (snd t))))) H).
  - exact (f_equal (fun t => snd (fst (fst (snd t)))) H).
  - exact (f_equal (fun t => snd (fst (snd t))) H).
  - exact (f_equal (fun t => snd (snd t)) H).
Qed.

End ThresholdMore.

(** * Further properties of the correlation matcher *)

Module CorrelationMore.
Import Correlation CorrelationFacts Views.

(** ** What a call writes *)

(** The first half of [template_match] writes the two stacks only. *)
Lemma stack_step_writes_stacks self v h n :
  exists vs hs,
    snd (stack_step self v h n)
    = set_horizontal_signal_stack hs (set_vertical_signal_stack vs self).
Proof.
  destruct self as [vp hp lf rf uf df st it vs hs cc lt rt bt ut dt].
  unfold stack_step. cbn.
  destruct vs as [| z | f | lv]; cbn; try (eexists _, _; reflexivity).
  destruct hs as [| z | f | lh]; cbn; try (eexists _, _; reflexivity).
  destruct (it >? n); cbn; eexists _, _; reflexivity.
Qed.

(** What a call of [template_match] can change in the state. *)
Lemma template_match_writes p self v h n :
  exists vs hs st,
    snd (template_match p self v h n)
    = set_status st (set_horizontal_signal_stack hs (set_vertical_signal_stack vs self)).
Proof.
  unfold template_match.
  destruct (stack_step_writes_stacks self v h n) as [vs [hs Hs]].
  destruct (stack_step self v h n) as [[u | e] self']; cbn [snd] in *; subst self'.
  - rewrite correlate_frame. eexists _, _, _. reflexivity.
  - exists vs, hs, (status self).
    destruct self; reflexivity.
Qed.

(** A call of [template_match], whether it returns or raises, leaves the
    previous amplitudes, the four flags, the iterator, the correlation
    threshold and the five templates as they were on entry. *)
Theorem template_match_leaves_threshold_state p self v h n :
  vertical_prev_amplitude (snd (template_match p self v h n))
  = vertical_prev_amplitude self
  /\ horizontal_prev_amplitude (snd (template_match p self v h n))
     = horizontal_prev_amplitude self
  /\ up_flag (snd (template_match p self v h n)) = up_flag self
  /\ down_flag (snd (template_match p self v h n)) = down_flag self
  /\ right_flag (snd (template_match p self v h n)) = right_flag self
  /\ left_flag (snd (template_match p self v h n)) = left_flag self
  /\ iterator (snd (template_match p self v h n)) = iterator self
  /\ cross_corr_tresh (snd (template_match p self v h n)) = cross_corr_tresh self
  /\ left_template (snd (template_match p self v h n)) = left_template self
  /\ right_template (snd (template_match p self v h n)) = right_template self
  /\ up_template (snd (template_match p self v h n)) = up_template self
  /\ down_template (snd (template_match p self v h n)) = down_template self
  /\ blink_template (snd (template_match p self v h n)) = blink_template self.
Proof.
  destruct (template_match_writes p self v h n) as [vs [hs [st H]]].
  rewrite H. destruct self. repeat split.
Qed.

(** ** Calls that raise *)

(** A call that raises leaves the status as it was. *)
Theorem failed_call_keeps_status p self v h n e :
  fst (template_match p self v h n) = Raise e ->
  status (snd (template_match p self v h n)) = status self.
Proof.
  unfold template_match.
  pose proof (stack_step_status self v h n) as Hst.
  destruct (stack_step self v h n) as [[u | e'] self']; cbn [snd] in *; [| intros _; exact Hst].
  unfold correlate.
  repeat match goal with
         | |- context [match p ?x ?y with _ => _ end] => destruct (p x y)
         end; cbn [fst snd]; intros H; try exact Hst; discriminate.
Qed.

Lemma failed_call_keeps_status_witness :
  status (snd (template_match pearsonr_rejecting new_classify 1 0 3)) = status new_classify.
Proof.
  apply (failed_call_keeps_status pearsonr_rejecting new_classify 1 0 3 TypeError).
  vm_compute; reflexivity.
Defined.

(** The eviction can never be carried out: a call whose iterator is above
    the template size raises [AttributeError], whatever the stacks hold and
    whatever the library function does. *)
Theorem eviction_always_raises p self v h n :
  iterator self > n ->
  fst (template_match p self v h n) = Raise AttributeError.
Proof.
  intros Hit. apply Z.gt_lt, Z.ltb_lt in Hit. rewrite <- Z.gtb_ltb in Hit.
  destruct self as [vp hp lf rf uf df st it vs hs cc lt rt bt ut dt].
  cbn in Hit. unfold template_match, stack_step. cbn.
  destruct vs as [| z | f | lv]; cbn; try reflexivity.
  destruct hs as [| z | f | lh]; cbn; try reflexivity.
  rewrite Hit. reflexivity.
Qed.

Lemma eviction_always_raises_witness :
  fst (template_match pearsonr_perfect new_classify 1 0 (-1)) = Raise AttributeError.
Proof.
  apply eviction_always_raises. cbn. lia.
Defined.

(** ** The first call on a fresh object *)

(** The first call on a fresh object, with a template size that is not
    negative, passes [None] and the template [0] to the library function
    five times: it raises what the function raises, and returns the blink
    status or the initial status otherwise. *)
Theorem first_call_on_fresh_object p v h n :
  0 <= n ->
  fst (template_match p new_classify v h n)
  = match p PyNone (PyInt 0) with
    | Raise e => Raise e
    | Ok c => Ok (if fgt (fst c) 0.9 then "blink" else "centre")
    end.
Proof.
  intros Hn. unfold template_match.
  rewrite (stack_step_with_lists new_classify v h n [] [] eq_refl eq_refl).
  replace (iterator new_classify >? n) with false
    by (symmetry; rewrite Z.gtb_ltb; apply Z.ltb_ge; exact Hn).
  destruct (p PyNone (PyInt 0)) as [c | e] eqn:Hp.
  - rewrite (correlate_answers p
               (set_horizontal_signal_stack PyNone
                  (set_vertical_signal_stack PyNone new_classify))
               c c c c c Hp Hp Hp Hp Hp).
    cbn [fst].
    rewrite status_select_status.
    destruct (fgt (fst c) 0.9); reflexivity.
  - unfold correlate. cbn. rewrite Hp. reflexivity.
Qed.

Lemma first_call_on_fresh_object_witness :
  fst (template_match pearsonr_perfect new_classify 1 0 3) = Ok "blink".
Proof.
  rewrite first_call_on_fresh_object by lia. vm_compute; reflexivity.
Defined.

(** ** The statuses a call returns *)

(** A call that returns gives the status held on entry or one of the five
    gesture statuses. *)
Theorem template_match_returns_gesture_or_held_status p self v h n s :
  fst (template_match p self v h n) = Ok s ->
  s = status self \/ In s ["left"; "right"; "up"; "down"; "blink"].
Proof.
  unfold template_match.
  pose proof (stack_step_status self v h n) as Hst.
  destruct (stack_step self v h n) as [[u | e'] self']; cbn [snd] in *; [| discriminate].
  unfold correlate.
  repeat match goal with
         | |- context [match p ?x ?y with _ => _ end] => destruct (p x y)
         end; cbn [fst]; try discriminate.
  intros H. injection H as <-. rewrite status_select_status, Hst.
  repeat match goal with
         | |- context [if ?b then _ else _] => destruct b
         end; cbn; tauto.
Qed.

Lemma template_match_returns_gesture_or_held_status_witness :
  "blink" = status new_classify \/ In "blink" ["left"; "right"; "up"; "down"; "blink"].
Proof.
  apply (template_match_returns_gesture_or_held_status pearsonr_perfect new_classify 1 0 3).
  vm_compute; reflexivity.
Defined.

(** ** The correlation threshold attribute *)

(** The attribute [cross_corr_tresh] set by [__init__] is read by neither
    method: whatever it holds, [template_match] compares with the literal
    [0.9], and both methods return the same. *)
Theorem cross_corr_tresh_is_not_read p self x v h n :
  fst (template_match p (with_cross_corr_tresh x self) v h n)
  = fst (template_match p self v h n)
  /\ fst (Threshold.treshold (with_cross_corr_tresh x self) v h)
     = fst (Threshold.treshold self v h).
Proof.
  split.
  - destruct self as [vp hp lf rf uf df st it vs hs cc lt rt bt ut dt].
    unfold template_match, stack_step. cbn.
    destruct vs as [| z | f | lv]; cbn; try reflexivity.
    destruct hs as [| z | f | lh]; cbn; try reflexivity.
    destruct (it >? n); cbn; [reflexivity|].
    unfold correlate. cbn.
    repeat match goal with
           | |- context [match p ?a ?b with _ => _ end] => destruct (p a b)
           end; cbn; try reflexivity.
    rewrite !status_select_status. reflexivity.
  - rewrite !ThresholdFacts.treshold_returns_status, !ThresholdFacts.status_treshold.
    destruct self; reflexivity.
Qed.

End CorrelationMore.

(** * Properties of the sample file of [graph.animate] *)

Module GraphFacts.
Import Graph.

Lemma filter_all (A : Type) (f : A -> bool) (l : list A) :
  filter f l = l <-> Forall (fun x => f x = true) l.
Proof.
  induction l as [| a l IH]; cbn.
  - split; [constructor | reflexivity].
  - destruct (f a) eqn:Hfa.
    + split.
      * intros H. injection H as H. constructor; [exact Hfa | apply IH; exact H].
      * intros H. inversion H; subst. f_equal. apply IH. assumption.
    + split.
      * intros H. pose proof (filter_length_le f l) as Hlen.
        rewrite H in Hlen. cbn in Hlen. lia.
      * intros H. inversion H; subst. congruence.
Qed.

Lemma delete_first_row_cons (first : string) (rest : list string) :
  delete_first_row (first :: rest)
  = filter (fun i => negb (String.eqb i first)) rest.
Proof.
  unfold delete_first_row. cbn. rewrite String.eqb_refl. reflexivity.
Qed.

(** The block removes every line equal to the first one, wherever it
    stands, and keeps the other lines in their order; an empty file stays
    empty. *)
Theorem delete_first_row_removes_every_copy (first : string) (rest : list string) :
  ~ In first (delete_first_row (first :: rest))
  /\ (forall i, i <> first ->
        filter (String.eqb i) (delete_first_row (first :: rest))
        = filter (String.eqb i) rest)
  /\ (forall before after,
        delete_first_row (first :: before ++ first :: after)%list
        = (delete_first_row (first :: before) ++ delete_first_row (first :: after))%list)
  /\ delete_first_row [] = [].
Proof.
  rewrite delete_first_row_cons.
  repeat match goal with |- _ /\ _ => split end.
  - intros H. apply filter_In in H. destruct H as [_ H].
    rewrite String.eqb_refl in H. discriminate.
  - intros i Hi. induction rest as [| r rest IH]; cbn; [reflexivity|].
    destruct (String.eqb r first) eqn:Hr; cbn.
    + apply String.eqb_eq in Hr. subst r.
      destruct (String.eqb i first) eqn:Hif; [apply String.eqb_eq in Hif; contradiction|].
      exact IH.
    + destruct (String.eqb i r); [f_equal|]; exact IH.
  - intros before after. rewrite !delete_first_row_cons, filter_app. cbn.
    rewrite String.eqb_refl. reflexivity.
  - reflexivity.
Qed.

(** The block deletes the first row and nothing else exactly when no later
    row repeats it. *)
Theorem delete_first_row_is_tail_iff_unique (first : string) (rest : list string) :
  delete_first_row (first :: rest) = rest <-> ~ In first rest.
Proof.
  rewrite delete_first_row_cons, filter_all, Forall_forall.
  split.
  - intros H Hin. specialize (H first Hin). rewrite String.eqb_refl in H. discriminate.
  - intros Hnot i Hi. destruct (String.eqb i first) eqn:E; [| reflexivity].
    apply String.eqb_eq in E. subst i. contradiction.
Qed.

(** Two rows repeating the first one are deleted with it. *)
Example delete_first_row_repeated_rows :
  delete_first_row ["1,2"; "3,4"; "1,2"; "5,6"; "1,2"] = ["3,4"; "5,6"].
Proof. reflexivity. Qed.

End GraphFacts.
